(** * obj_file_io: an object-to-single-file I/O framework

    A shallow embedding of [sfm/obj_file_io.py]: the three engine
    operations [_dump], [_safe_dump] and [_load], the decorators
    [dump_func], [safe_dump_func] and [load_func] that bind a codec
    function to them, and the logging helper [prt_console].

    Python's effects are threaded through an explicit [World]: the files
    of the file system, the lines the logger has emitted, the readings the
    processor clock will give, and the history of file operations.  A
    Python call is a computation [M A] that yields either a raised
    exception or a value, together with the world it leaves behind. *)

From Stdlib Require Import ZArith String List Lia.
From Stdlib.Strings Require Import Byte.
From stdpp Require Import base option strings gmap list pretty.

Local Open Scope string_scope.
Local Open Scope Z_scope.

(** ** Python values the engine looks at *)

(** Exceptions.  [TypeError] and [ValueError] are what the engine itself
    raises; [zlib_error] is [zlib.error]; [OSError] stands for the
    failures of the file system; a codec may raise any of them, or an
    [Exception] of its own. *)
Inductive exn : Type :=
| TypeError (msg : string)
| ValueError (msg : string)
| zlib_error
| OSError (msg : string)
| Exception (msg : string).

(** What can be passed as [dumper_func] / [loader_func].  [F] is the type
    of the underlying behaviour when the object is called.  [PyFunction]
    is an object created by [def] or [lambda]; the other callables are a
    built-in ([pickle.dumps]), a bound method, a class and a
    [functools.partial] object; [PyNone] is the default of the parameter
    and [PyData] any other object that cannot be called. *)
Inductive pyobj (F : Type) : Type :=
| PyNone
| PyData
| PyFunction (f : F)
| PyBuiltin (f : F)
| PyMethod (f : F)
| PyClass (f : F)
| PyPartial (f : F).

Arguments PyNone {F}.
Arguments PyData {F}.
Arguments PyFunction {F} f.
Arguments PyBuiltin {F} f.
Arguments PyMethod {F} f.
Arguments PyClass {F} f.
Arguments PyPartial {F} f.

(** [inspect.isfunction(o)] is [isinstance(o, types.FunctionType)]. *)
Definition inspect_isfunction {F} (o : pyobj F) : bool :=
  match o with
  | PyFunction _ => true
  | _ => false
  end.

(** The built-in [callable(o)]. *)
Definition callable {F} (o : pyobj F) : bool :=
  match o with
  | PyNone | PyData => false
  | _ => true
  end.

(** The behaviour run by the call [o(...)], when [o] can be called. *)
Definition py_callee {F} (o : pyobj F) : option F :=
  match o with
  | PyNone | PyData => None
  | PyFunction f | PyBuiltin f | PyMethod f | PyClass f | PyPartial f => Some f
  end.

(** ** The world *)

(** Operations on the content of files.  [SysCreat p] is [open(p, "wb")]:
    the file is created, or truncated when it exists.  [SysWrite p c] is
    one more byte of [f.write(b)] reaching the file.  [SysRead p] is
    [f.read()] on a file opened with ["rb"].  [SysRename src dst] is an
    [os.rename] that the system carried out, between two names of one
    directory.  [SysUnlink p] is [os.unlink(p)]. *)
Inductive syscall : Type :=
| SysCreat (p : string)
| SysWrite (p : string) (c : byte)
| SysRead (p : string)
| SysRename (src dst : string)
| SysUnlink (p : string).

(** The files are regular files in directories that can be written to;
    [console] is what the logger's stream handler has printed, [clock] the
    readings [time.clock] has yet to give, [trace] the operations performed
    so far, oldest first.  [os_rename_refused fs src dst] tells whether the
    system, with the files [fs], makes [os.rename(src, dst)] raise
    [OSError] although [src] exists: never where a rename replaces its
    destination; on Windows whenever the destination exists; and wherever
    permissions or devices forbid it. *)
Record World : Type := mkWorld {
  files : gmap string (list byte);
  console : list string;
  clock : list Z;
  trace : list syscall;
  os_rename_refused : gmap string (list byte) -> string -> string -> bool
}.

(** The effect of one operation on the files. *)
Definition fs_step (fs : gmap string (list byte)) (c : syscall)
  : gmap string (list byte) :=
  match c with
  | SysCreat p => <[p := []]> fs
  | SysWrite p c => alter (fun b => (b ++ [c])%list) p fs
  | SysRead _ => fs
  | SysRename src dst =>
      match fs !! src with
      | Some b => <[dst := b]> (delete src fs)
      | None => fs
      end
  | SysUnlink p => delete p fs
  end.

Definition fs_run (calls : list syscall) (fs : gmap string (list byte))
  : gmap string (list byte) :=
  fold_left fs_step calls fs.

(** The operations of [with open(p, "wb") as f: f.write(b)], in order. *)
Definition write_calls (p : string) (b : list byte) : list syscall :=
  SysCreat p :: map (SysWrite p) b.

(** One operation performed in a world: the files change and the
    operation is recorded. *)
Definition exec (w : World) (c : syscall) : World :=
  mkWorld (fs_step (files w) c) (console w) (clock w) (trace w ++ [c])%list
    (os_rename_refused w).

(** ** Computations *)

Definition M (A : Type) : Type := World -> (exn + A) * World.

Definition ret {A} (a : A) : M A := fun w => (inr a, w).

Definition raise {A} (e : exn) : M A := fun w => (inl e, w).

Definition bind {A B} (m : M A) (k : A -> M B) : M B :=
  fun w =>
    match m w with
    | (inl e, w') => (inl e, w')
    | (inr a, w') => k a w'
    end.

Notation "'let*' x ':=' m 'in' k" := (bind m (fun x => k))
  (at level 10, x name, m at level 100, k at level 200).

(** The outcome of a pure call, as a computation. *)
Definition lift {A} (r : exn + A) : M A := fun w => (r, w).

Definition sys (c : syscall) : M unit := fun w => (inr tt, exec w c).

(** [os.path.exists(p)]. *)
Definition os_path_exists (p : string) : M bool :=
  fun w => (inr (bool_decide (is_Some (files w !! p))), w).

(** [with open(p, "wb") as f: f.write(b)]. *)
Definition write_file (p : string) (b : list byte) : M unit :=
  fun w => (inr tt, fold_left exec (write_calls p b) w).

(** [with open(p, "rb") as f: b = f.read()]. *)
Definition read_file (p : string) : M (list byte) :=
  fun w =>
    match files w !! p with
    | Some b => (inr b, exec w (SysRead p))
    | None => (inl (OSError ("No such file or directory: '" ++ p ++ "'")), w)
    end.

(** [os.rename(src, dst)]: carried out, unless [src] is missing or the
    system refuses. *)
Definition os_rename (src dst : string) : M unit :=
  fun w =>
    match files w !! src with
    | Some _ =>
        if os_rename_refused w (files w) src dst then
          (inl (OSError ("Cannot rename '" ++ src ++ "' to '" ++ dst ++ "'")), w)
        else (inr tt, exec w (SysRename src dst))
    | None => (inl (OSError ("No such file or directory: '" ++ src ++ "'")), w)
    end.

(** The operations of [shutil.copy2(src, dst)] for a file [src] holding
    [b]: [dst] is opened for writing, [src] is read and its bytes are
    written to [dst]. *)
Definition copy_calls (src dst : string) (b : list byte) : list syscall :=
  SysCreat dst :: SysRead src :: map (SysWrite dst) b.

(** [shutil.copy2(src, dst)]; copying a file onto itself is an error. *)
Definition shutil_copy2 (src dst : string) : M unit :=
  fun w =>
    match files w !! src with
    | Some b =>
        if decide (src = dst) then
          (inl (OSError ("'" ++ src ++ "' and '" ++ dst ++ "' are the same file")),
           w)
        else (inr tt, fold_left exec (copy_calls src dst b) w)
    | None => (inl (OSError ("No such file or directory: '" ++ src ++ "'")), w)
    end.

(** [os.unlink(p)]. *)
Definition os_unlink (p : string) : M unit :=
  fun w =>
    match files w !! p with
    | Some _ => (inr tt, exec w (SysUnlink p))
    | None => (inl (OSError ("No such file or directory: '" ++ p ++ "'")), w)
    end.

(** [shutil.move(src, dst)] for a file [src] and a name [dst] that is not
    a directory: [os.rename] is tried first, and when it raises [OSError]
    the file is copied to [dst] and [src] is removed. *)
Definition shutil_move (src dst : string) : M unit :=
  fun w =>
    match os_rename src dst w with
    | (inl (OSError _), w') =>
        bind (shutil_copy2 src dst) (fun _ => os_unlink src) w'
    | r => r
    end.

(** [time.clock()]: the next reading of the processor clock, counted in
    microseconds.  The module is written for the Python versions that have
    [time.clock] (it was removed in 3.8). *)
Definition time_clock : M Z :=
  fun w =>
    (inr (hd 0 (clock w)),
     mkWorld (files w) (console w) (tl (clock w)) (trace w)
       (os_rename_refused w)).

(** [logger.info(message)]: the stream handler prints the line. *)
Definition logger_info (message : string) : M unit :=
  fun w =>
    (inr tt,
     mkWorld (files w) (console w ++ [message])%list (clock w) (trace w)
       (os_rename_refused w)).

(** ["%.6f" % elapsed], for an elapsed time counted in microseconds. *)
Definition fmt_6f (us : Z) : string :=
  let a := Z.abs us in
  let frac := pretty (a mod 1000000) in
  (if us <? 0 then "-" else "")
    ++ pretty (a / 1000000) ++ "."
    ++ String.concat "" (replicate (6 - String.length frac)%nat "0") ++ frac.

Definition LF : string := String (Ascii.ascii_of_nat 10) EmptyString.

(** ** obj_file_io *)

Definition prt_console (message : string) (verbose : bool) : M unit :=
  if verbose then logger_info message else ret tt.

Section Engine.

(** The type of the persisted values and of the keyword arguments passed
    on to the codec. *)
Context {V K : Type}.

(** [zlib.compress] and [zlib.decompress]. *)
Variable zlib_compress : list byte -> list byte.
Variable zlib_decompress : list byte -> exn + list byte.

Definition dumper : Type := V -> K -> exn + list byte.
Definition loader : Type := list byte -> K -> exn + V.

(** The call [o(x, **kwargs)]. *)
Definition py_call {A B} (o : pyobj (A -> K -> exn + B)) (x : A) (kwargs : K)
  : M B :=
  match py_callee o with
  | Some f => lift (f x kwargs)
  | None => raise (TypeError "object is not callable")
  end.

Definition _dump (obj : V) (abspath : string) (dumper_func : pyobj dumper)
    (compress overwrite verbose : bool) (kwargs : K) : M (option (list byte)) :=
  if negb (inspect_isfunction dumper_func) then
    raise (TypeError
      "dumper_func has to be a function take object as input and return binary!")
  else
    let* _ := prt_console (LF ++ "Dump to '" ++ abspath ++ "' ...") verbose in
    let* found := os_path_exists abspath in
    if found && negb overwrite then
      let* _ := prt_console
                  "    Stop! File exists and overwrite is not allowed" verbose in
      ret None
    else
      let* st := time_clock in
      let* b := py_call dumper_func obj kwargs in
      let b := if compress then zlib_compress b else b in
      let* _ := write_file abspath b in
      let* now := time_clock in
      let elapsed := now - st in
      let* _ := prt_console
                  ("    Complete! Elapse " ++ fmt_6f elapsed ++ " sec.") verbose in
      ret (Some b).

Definition _safe_dump (obj : V) (abspath : string) (dumper_func : pyobj dumper)
    (compress verbose : bool) (kwargs : K) : M (option (list byte)) :=
  let abspath_temp := abspath ++ ".tmp" in
  let* b := _dump obj abspath_temp dumper_func compress true verbose kwargs in
  let* _ := shutil_move abspath_temp abspath in
  ret b.

Definition _load (abspath : string) (loader_func : pyobj loader)
    (decompress verbose : bool) (kwargs : K) : M V :=
  if negb (inspect_isfunction loader_func) then
    raise (TypeError
      "loader_func has to be a function take binary as input and return an object!")
  else
    let* _ := prt_console (LF ++ "Load from '" ++ abspath ++ "' ...") verbose in
    let* found := os_path_exists abspath in
    if negb found then
      raise (ValueError ("'" ++ abspath ++ "' doesn't exist."))
    else
      let* st := time_clock in
      let* b := read_file abspath in
      let* b := if decompress then lift (zlib_decompress b) else ret b in
      let* obj := py_call loader_func b kwargs in
      let* now := time_clock in
      let elapsed := now - st in
      let* _ := prt_console
                  ("    Complete! Elapse " ++ fmt_6f elapsed ++ " sec.") verbose in
      ret obj.

(** The decorators: each returns the wrapper, a closure over the function
    it was given. *)
Definition dump_func (dumper_func : pyobj dumper)
  : M (V -> string -> bool -> bool -> bool -> K -> M (option (list byte))) :=
  ret (fun obj abspath compress overwrite verbose kwargs =>
         _dump obj abspath dumper_func compress overwrite verbose kwargs).

Definition safe_dump_func (dumper_func : pyobj dumper)
  : M (V -> string -> bool -> bool -> K -> M (option (list byte))) :=
  ret (fun obj abspath compress verbose kwargs =>
         _safe_dump obj abspath dumper_func compress verbose kwargs).

Definition load_func (loader_func : pyobj loader)
  : M (string -> bool -> bool -> K -> M V) :=
  ret (fun abspath decompress verbose kwargs =>
         _load abspath loader_func decompress verbose kwargs).

End Engine.

(** ** Sample instances

    A stand-in for zlib that frames the data with the first byte of a zlib
    stream, and a codec over byte strings that stores them as they are;
    they serve to run the engine on concrete inputs. *)

Definition marker_compress (b : list byte) : list byte := x78 :: b.

Definition marker_decompress (b : list byte) : exn + list byte :=
  match b with
  | x78 :: rest => inr rest
  | _ => inl zlib_error
  end.

Definition raw_dumps (obj : list byte) (_ : unit) : exn + list byte := inr obj.

Definition raw_loads (b : list byte) (_ : unit) : exn + list byte := inr b.

(** A system whose rename replaces its destination, and Windows, where a
    rename onto an existing file is refused. *)
Definition posix_rename : gmap string (list byte) -> string -> string -> bool :=
  fun _ _ _ => false.

Definition windows_rename : gmap string (list byte) -> string -> string -> bool :=
  fun fs _ dst => bool_decide (is_Some (fs !! dst)).

Definition empty_world : World := mkWorld ∅ [] [] [] posix_rename.

Definition busy_world : World :=
  mkWorld {[ "f" := [x01; x02] ]} [] [10; 25; 40; 70] [] posix_rename.

Definition windows_world : World :=
  mkWorld {[ "f" := [x01; x02] ]} [] [10; 25; 40; 70] [] windows_rename.

(** ** The operations a computation issues

    [issued m w] is the list of file operations that [m] performs when
    run from [w]: what it appends to the history. *)
Definition issued {A} (m : M A) (w : World) : list syscall :=
  drop (length (trace w)) (trace (snd (m w))).

(** The payload [_dump] writes: the codec's output, compressed on
    request; [None] when the codec object is rejected or its call raises. *)
Definition payload {V K} (zlib_compress : list byte -> list byte)
    (dumper_func : pyobj (V -> K -> exn + list byte)) (obj : V)
    (compress : bool) (kwargs : K) : option (list byte) :=
  match dumper_func with
  | PyFunction f =>
      match f obj kwargs with
      | inr e => Some (if compress then zlib_compress e else e)
      | inl _ => None
      end
  | _ => None
  end.

(** Two worlds that differ at most in what was printed. *)
Definition same_but_console (w1 w2 : World) : Prop :=
  files w1 = files w2 /\ clock w1 = clock w2 /\ trace w1 = trace w2
  /\ os_rename_refused w1 = os_rename_refused w2.

(** Two computations that cannot be told apart except by what they
    print. *)
Definition sim {A} (m1 m2 : M A) : Prop :=
  forall w1 w2, same_but_console w1 w2 ->
    fst (m1 w1) = fst (m2 w2) /\ same_but_console (snd (m1 w1)) (snd (m2 w2)).

(** The Python type of what a call gives back. *)
Inductive outcome_shape : Type := Raises | ReturnsNone | ReturnsBytes.

Definition shape_of (r : exn + option (list byte)) : outcome_shape :=
  match r with
  | inl _ => Raises
  | inr None => ReturnsNone
  | inr (Some _) => ReturnsBytes
  end.

(** Whether a call ended in an exception. *)
Definition raised {A} (r : exn + A) : bool :=
  match r with
  | inl _ => true
  | inr _ => false
  end.

(** * Properties *)

(** ** The file system *)

Lemma fs_run_app (l1 l2 : list syscall) (fs : gmap string (list byte)) :
  fs_run (l1 ++ l2) fs = fs_run l2 (fs_run l1 fs).
Proof. unfold fs_run. apply fold_left_app. Qed.

Lemma fs_run_appends (p : string) (b pre : list byte)
    (fs : gmap string (list byte)) :
  fs !! p = Some pre ->
  fs_run (map (SysWrite p) b) fs = <[p := (pre ++ b)%list]> fs.
Proof.
  revert pre fs. induction b as [|c b IH]; intros pre fs Hp; simpl.
  - rewrite app_nil_r. symmetry. by apply insert_id.
  - unfold fs_run in *. simpl.
    rewrite (IH (pre ++ [c])%list).
    + rewrite <- app_assoc. simpl.
      apply map_eq. intros q. destruct (decide (p = q)) as [->|Hne].
      * by rewrite !lookup_insert_eq.
      * rewrite !lookup_insert_ne by done. by rewrite lookup_alter_ne.
    + rewrite lookup_alter_eq, Hp. done.
Qed.

Lemma fs_run_write_calls (p : string) (b : list byte)
    (fs : gmap string (list byte)) :
  fs_run (write_calls p b) fs = <[p := b]> fs.
Proof.
  unfold write_calls. change (fs_run (SysCreat p :: map (SysWrite p) b) fs)
    with (fs_run (map (SysWrite p) b) (<[p := []]> fs)).
  rewrite (fs_run_appends p b []) by apply lookup_insert_eq.
  simpl. apply insert_insert_eq.
Qed.

Lemma fs_run_fill (p : string) (b : list byte) (fs : gmap string (list byte)) :
  fs_run (map (SysWrite p) b) (<[p := []]> fs) = <[p := b]> fs.
Proof. apply (fs_run_write_calls p b fs). Qed.

(** Creating and filling [p] touches no other file, however far it got. *)
Lemma fs_run_write_prefix_other (p q : string) (b : list byte) (k : nat)
    (fs : gmap string (list byte)) :
  q <> p -> fs_run (take k (write_calls p b)) fs !! q = fs !! q.
Proof.
  intros Hne.
  assert (Hall : Forall (fun c => forall fs', fs_step fs' c !! q = fs' !! q)
                        (take k (write_calls p b))).
  { apply Forall_take. unfold write_calls. constructor.
    - intros fs'. simpl. by rewrite lookup_insert_ne.
    - apply Forall_map. apply Forall_true. intros c fs'. simpl.
      by rewrite lookup_alter_ne. }
  revert fs. induction Hall as [|c l Hc _ IH]; intros fs; [done|].
  change (fs_run (c :: l) fs) with (fs_run l (fs_step fs c)).
  by rewrite IH, Hc.
Qed.

Lemma exec_all_files (calls : list syscall) (w : World) :
  files (fold_left exec calls w) = fs_run calls (files w).
Proof. revert w. induction calls as [|c l IH]; intros w; [done|]. simpl. by rewrite IH. Qed.

Lemma exec_all_trace (calls : list syscall) (w : World) :
  trace (fold_left exec calls w) = (trace w ++ calls)%list.
Proof.
  revert w. induction calls as [|c l IH]; intros w; simpl.
  - by rewrite app_nil_r.
  - rewrite IH. simpl. by rewrite <- app_assoc.
Qed.

Lemma exec_all_console (calls : list syscall) (w : World) :
  console (fold_left exec calls w) = console w.
Proof. revert w. induction calls as [|c l IH]; intros w; [done|]. simpl. by rewrite IH. Qed.

Lemma exec_all_clock (calls : list syscall) (w : World) :
  clock (fold_left exec calls w) = clock w.
Proof. revert w. induction calls as [|c l IH]; intros w; [done|]. simpl. by rewrite IH. Qed.

Lemma string_length_app (s t : string) :
  String.length (s ++ t) = (String.length s + String.length t)%nat.
Proof.
  induction s as [|a s IH]; [done|].
  change (String a s ++ t) with (String a (s ++ t)).
  simpl. by rewrite IH.
Qed.

Lemma exec_all_refused (calls : list syscall) (w : World) :
  os_rename_refused (fold_left exec calls w) = os_rename_refused w.
Proof. revert w. induction calls as [|c l IH]; intros w; [done|]. simpl. by rewrite IH. Qed.

(** The temporary name is never the target itself. *)
Lemma temp_name_fresh (abspath : string) : abspath ++ ".tmp" <> abspath.
Proof.
  intros H. apply (f_equal String.length) in H.
  rewrite string_length_app in H. simpl in H. lia.
Qed.

(** ** The engine, case by case *)

Ltac run_engine :=
  unfold _dump, _safe_dump, _load, bind, prt_console, logger_info, ret, raise,
    os_path_exists, time_clock, py_call, lift, write_file, read_file,
    shutil_move; simpl.

Section EngineFacts.

Context {V K : Type}.
Variable zlib_compress : list byte -> list byte.
Variable zlib_decompress : list byte -> exn + list byte.

Lemma exists_true (p : string) (w : World) :
  is_Some (files w !! p) -> bool_decide (is_Some (files w !! p)) = true.
Proof. apply bool_decide_eq_true_2. Qed.

Lemma exists_false (p : string) (w : World) :
  files w !! p = None -> bool_decide (is_Some (files w !! p)) = false.
Proof.
  intros H. apply bool_decide_eq_false_2. rewrite H. by intros [? ?].
Qed.

Lemma dump_rejects (obj : V) (p : string) (d : pyobj (@dumper V K))
    (c o v : bool) (kw : K) (w : World) :
  inspect_isfunction d = false ->
  _dump zlib_compress obj p d c o v kw w
  = (inl (TypeError
       "dumper_func has to be a function take object as input and return binary!"),
     w).
Proof. intros H. unfold _dump. by rewrite H. Qed.

Lemma load_rejects (p : string) (l : pyobj (@loader V K)) (c v : bool)
    (kw : K) (w : World) :
  inspect_isfunction l = false ->
  _load zlib_decompress p l c v kw w
  = (inl (TypeError
       "loader_func has to be a function take binary as input and return an object!"),
     w).
Proof. intros H. unfold _load. by rewrite H. Qed.

Lemma dump_skips (obj : V) (p : string) (f : @dumper V K) (c v : bool)
    (kw : K) (w : World) :
  is_Some (files w !! p) ->
  let r := _dump zlib_compress obj p (PyFunction f) c false v kw w in
  fst r = inr None /\ files (snd r) = files w /\ trace (snd r) = trace w
  /\ clock (snd r) = clock w.
Proof.
  intros H. run_engine. destruct v; simpl; rewrite (exists_true _ _ H); by simpl.
Qed.

Lemma dump_proceeds (p : string) (o : bool) (w : World) :
  files w !! p = None \/ o = true ->
  bool_decide (is_Some (files w !! p)) && negb o = false.
Proof.
  intros [H | ->].
  - by rewrite (exists_false _ _ H).
  - apply andb_false_r.
Qed.

Lemma dump_writes (obj : V) (p : string) (f : @dumper V K) (c o v : bool)
    (kw : K) (w : World) (e : list byte) :
  f obj kw = inr e ->
  files w !! p = None \/ o = true ->
  let b := if c then zlib_compress e else e in
  let r := _dump zlib_compress obj p (PyFunction f) c o v kw w in
  fst r = inr (Some b) /\ files (snd r) = <[p := b]> (files w)
  /\ trace (snd r) = (trace w ++ write_calls p b)%list
  /\ clock (snd r) = tl (tl (clock w)).
Proof.
  intros He Ho. pose proof (dump_proceeds p o w Ho) as Hgo.
  run_engine.
  destruct v; simpl; rewrite Hgo, He; simpl;
    rewrite ?exec_all_files, ?exec_all_trace, ?exec_all_clock; simpl;
    by rewrite fs_run_fill, <- app_assoc.
Qed.

Lemma dump_codec_raises (obj : V) (p : string) (f : @dumper V K) (c o v : bool)
    (kw : K) (w : World) (x : exn) :
  f obj kw = inl x ->
  files w !! p = None \/ o = true ->
  let r := _dump zlib_compress obj p (PyFunction f) c o v kw w in
  fst r = inl x /\ files (snd r) = files w /\ trace (snd r) = trace w.
Proof.
  intros He Ho. pose proof (dump_proceeds p o w Ho) as Hgo.
  run_engine. destruct v; simpl; rewrite Hgo, He; by simpl.
Qed.

Lemma load_missing (p : string) (g : @loader V K) (c v : bool) (kw : K)
    (w : World) :
  files w !! p = None ->
  let r := _load zlib_decompress p (PyFunction g) c v kw w in
  fst r = inl (ValueError ("'" ++ p ++ "' doesn't exist."))
  /\ files (snd r) = files w /\ trace (snd r) = trace w
  /\ clock (snd r) = clock w.
Proof.
  intros H. run_engine. destruct v; simpl; rewrite (exists_false _ _ H); by simpl.
Qed.

(** What [_load] gives back for a file that is there: the loader applied
    to the bytes of the file, decompressed on request. *)
Lemma load_reads (p : string) (g : @loader V K) (c v : bool) (kw : K)
    (w : World) (b : list byte) :
  files w !! p = Some b ->
  let r := _load zlib_decompress p (PyFunction g) c v kw w in
  fst r = (if c then
             match zlib_decompress b with
             | inl x => inl x
             | inr b' => g b' kw
             end
           else g b kw)
  /\ files (snd r) = files w /\ trace (snd r) = (trace w ++ [SysRead p])%list.
Proof.
  intros H. assert (Hex : is_Some (files w !! p)) by (rewrite H; eauto).
  run_engine.
  destruct v; simpl; rewrite (exists_true _ _ Hex); simpl; rewrite H; simpl;
    destruct c; simpl;
    try destruct (zlib_decompress b) as [x|b']; simpl;
    try destruct (g _ kw); by simpl.
Qed.

End EngineFacts.

(** ** Printing does not steer the engine *)

Section Transparency.

Lemma same_but_console_refl (w : World) : same_but_console w w.
Proof. by repeat split. Qed.

Lemma sim_ret {A} (a : A) : sim (ret a) (ret a).
Proof. by intros w1 w2 Hw. Qed.

Lemma sim_raise {A} (e : exn) : sim (@raise A e) (raise e).
Proof. by intros w1 w2 Hw. Qed.

Lemma sim_lift {A} (r : exn + A) : sim (lift r) (lift r).
Proof. by intros w1 w2 Hw. Qed.

Lemma sim_bind {A B} (m1 m2 : M A) (k1 k2 : A -> M B) :
  sim m1 m2 -> (forall a, sim (k1 a) (k2 a)) -> sim (bind m1 k1) (bind m2 k2).
Proof.
  intros Hm Hk w1 w2 Hw. unfold bind.
  destruct (Hm w1 w2 Hw) as [Hr Hw'].
  destruct (m1 w1) as [[e1|a1] w1'], (m2 w2) as [[e2|a2] w2']; simpl in *;
    try discriminate.
  - injection Hr as ->. simpl. split; [reflexivity|exact Hw'].
  - injection Hr as ->. by apply Hk.
Qed.

Lemma sim_prt_console (msg1 msg2 : string) (v1 v2 : bool) :
  sim (prt_console msg1 v1) (prt_console msg2 v2).
Proof.
  intros w1 w2 (Hf & Hc & Ht & Ho).
  destruct v1, v2; simpl; by repeat split.
Qed.

Lemma sim_os_path_exists (p : string) : sim (os_path_exists p) (os_path_exists p).
Proof.
  intros w1 w2 Hw. unfold os_path_exists. simpl.
  destruct Hw as (Hf & Hc & Ht & Ho). rewrite Hf. by repeat split.
Qed.

Lemma sim_time_clock : sim time_clock time_clock.
Proof.
  intros w1 w2 (Hf & Hc & Ht & Ho). unfold time_clock, same_but_console. simpl.
  by rewrite Hf, Hc, Ht, Ho.
Qed.

Lemma sim_write_file (p : string) (b : list byte) :
  sim (write_file p b) (write_file p b).
Proof.
  intros w1 w2 (Hf & Hc & Ht & Ho). unfold write_file, same_but_console.
  cbn [fst snd].
  rewrite !exec_all_files, !exec_all_trace, !exec_all_clock, !exec_all_refused.
  by rewrite Hf, Hc, Ht, Ho.
Qed.

Lemma sim_read_file (p : string) : sim (read_file p) (read_file p).
Proof.
  intros w1 w2 (Hf & Hc & Ht & Ho). unfold read_file, same_but_console.
  rewrite Hf. destruct (files w2 !! p); simpl; by rewrite ?Hf, ?Hc, ?Ht, ?Ho.
Qed.

Lemma sim_os_rename (src dst : string) :
  sim (os_rename src dst) (os_rename src dst).
Proof.
  intros w1 w2 (Hf & Hc & Ht & Ho). unfold os_rename, same_but_console.
  rewrite Hf, Ho. destruct (files w2 !! src); [|by simpl].
  destruct (os_rename_refused w2 (files w2) src dst); simpl;
    by rewrite ?Hf, ?Hc, ?Ht, ?Ho.
Qed.

Lemma sim_shutil_copy2 (src dst : string) :
  sim (shutil_copy2 src dst) (shutil_copy2 src dst).
Proof.
  intros w1 w2 (Hf & Hc & Ht & Ho). unfold shutil_copy2, same_but_console.
  rewrite Hf. destruct (files w2 !! src); [|by simpl].
  destruct (decide (src = dst)); [by simpl|]. cbn [fst snd].
  rewrite !exec_all_files, !exec_all_trace, !exec_all_clock, !exec_all_refused.
  by rewrite Hf, Hc, Ht, Ho.
Qed.

Lemma sim_os_unlink (p : string) : sim (os_unlink p) (os_unlink p).
Proof.
  intros w1 w2 (Hf & Hc & Ht & Ho). unfold os_unlink, same_but_console.
  rewrite Hf. destruct (files w2 !! p); simpl; by rewrite ?Hf, ?Hc, ?Ht, ?Ho.
Qed.

Lemma sim_shutil_move (src dst : string) :
  sim (shutil_move src dst) (shutil_move src dst).
Proof.
  intros w1 w2 Hw. unfold shutil_move.
  destruct (sim_os_rename src dst w1 w2 Hw) as [Hr Hw'].
  destruct (os_rename src dst w1) as [[e1|[]] w1'],
    (os_rename src dst w2) as [[e2|[]] w2']; simpl in Hr; try discriminate.
  - injection Hr as ->.
    destruct e2; try (by split).
    apply sim_bind; [apply sim_shutil_copy2|intros _; apply sim_os_unlink|done].
  - by split.
Qed.

Lemma sim_py_call {K A B} (o : pyobj (A -> K -> exn + B)) (x : A) (kw : K) :
  sim (py_call o x kw) (py_call o x kw).
Proof.
  unfold py_call. destruct (py_callee o); [apply sim_lift | apply sim_raise].
Qed.

Context {V K : Type}.
Variable zlib_compress : list byte -> list byte.
Variable zlib_decompress : list byte -> exn + list byte.

Lemma sim_dump (obj : V) (p : string) (d : pyobj (@dumper V K))
    (c o v1 v2 : bool) (kw : K) :
  sim (_dump zlib_compress obj p d c o v1 kw)
      (_dump zlib_compress obj p d c o v2 kw).
Proof.
  unfold _dump. destruct (negb (inspect_isfunction d)); [apply sim_raise|].
  apply sim_bind; [apply sim_prt_console|intros _].
  apply sim_bind; [apply sim_os_path_exists|intros found].
  destruct (found && negb o).
  - apply sim_bind; [apply sim_prt_console|intros _]. apply sim_ret.
  - apply sim_bind; [apply sim_time_clock|intros st].
    apply sim_bind; [apply sim_py_call|intros b].
    apply sim_bind; [apply sim_write_file|intros _].
    apply sim_bind; [apply sim_time_clock|intros now].
    apply sim_bind; [apply sim_prt_console|intros _]. apply sim_ret.
Qed.

Lemma sim_safe_dump (obj : V) (p : string) (d : pyobj (@dumper V K))
    (c v1 v2 : bool) (kw : K) :
  sim (_safe_dump zlib_compress obj p d c v1 kw)
      (_safe_dump zlib_compress obj p d c v2 kw).
Proof.
  unfold _safe_dump.
  apply sim_bind; [apply sim_dump|intros b].
  apply sim_bind; [apply sim_shutil_move|intros _]. apply sim_ret.
Qed.

Lemma sim_load (p : string) (l : pyobj (@loader V K)) (c v1 v2 : bool) (kw : K) :
  sim (_load zlib_decompress p l c v1 kw) (_load zlib_decompress p l c v2 kw).
Proof.
  unfold _load. destruct (negb (inspect_isfunction l)); [apply sim_raise|].
  apply sim_bind; [apply sim_prt_console|intros _].
  apply sim_bind; [apply sim_os_path_exists|intros found].
  destruct (negb found); [apply sim_raise|].
  apply sim_bind; [apply sim_time_clock|intros st].
  apply sim_bind; [apply sim_read_file|intros b].
  apply sim_bind; [destruct c; [apply sim_lift|apply sim_ret]|intros b'].
  apply sim_bind; [apply sim_py_call|intros obj].
  apply sim_bind; [apply sim_time_clock|intros now].
  apply sim_bind; [apply sim_prt_console|intros _]. apply sim_ret.
Qed.

(** C9: two calls of [_dump], of [_safe_dump] or of [_load] that differ only
    in [verbose] give the same result, value or exception alike, and leave
    the same files, operation history and clock: the flag decides only what
    is printed. *)
Theorem verbose_only_prints (obj : V) (p : string) (d : pyobj (@dumper V K))
    (l : pyobj (@loader V K)) (c o v1 v2 : bool) (kw : K) (w : World) :
  (fst (_dump zlib_compress obj p d c o v1 kw w)
   = fst (_dump zlib_compress obj p d c o v2 kw w)
   /\ same_but_console (snd (_dump zlib_compress obj p d c o v1 kw w))
                       (snd (_dump zlib_compress obj p d c o v2 kw w)))
  /\ (fst (_safe_dump zlib_compress obj p d c v1 kw w)
      = fst (_safe_dump zlib_compress obj p d c v2 kw w)
      /\ same_but_console (snd (_safe_dump zlib_compress obj p d c v1 kw w))
                          (snd (_safe_dump zlib_compress obj p d c v2 kw w)))
  /\ (fst (_load zlib_decompress p l c v1 kw w)
      = fst (_load zlib_decompress p l c v2 kw w)
      /\ same_but_console (snd (_load zlib_decompress p l c v1 kw w))
                          (snd (_load zlib_decompress p l c v2 kw w))).
Proof.
  split; [|split].
  - apply sim_dump, same_but_console_refl.
  - apply sim_safe_dump, same_but_console_refl.
  - apply sim_load, same_but_console_refl.
Qed.

End Transparency.

(** ** Dumping and loading *)

Section Persistence.

Context {V K : Type}.
Variable zlib_compress : list byte -> list byte.
Variable zlib_decompress : list byte -> exn + list byte.

(** What [zlib] promises: decompressing a compressed stream gives the data
    back. *)
Hypothesis zlib_lossless :
  forall b, zlib_decompress (zlib_compress b) = inr b.

(** C3: a call of [_dump] that is not skipped (the target is absent, or
    [overwrite] is set) leaves at the target exactly the encoder's output,
    compressed if and only if [compress] is set, whatever the target held
    before; it returns those very bytes, and no other file changes. *)
Theorem dump_stores_encoder_output (obj : V) (p : string) (f : @dumper V K)
    (c o v : bool) (kw : K) (w : World) (e : list byte) :
  f obj kw = inr e ->
  files w !! p = None \/ o = true ->
  let b := if c then zlib_compress e else e in
  let r := _dump zlib_compress obj p (PyFunction f) c o v kw w in
  fst r = inr (Some b)
  /\ files (snd r) !! p = Some b
  /\ (forall q, q <> p -> files (snd r) !! q = files w !! q).
Proof.
  intros He Ho b r.
  destruct (dump_writes zlib_compress obj p f c o v kw w e He Ho)
    as (Hr & Hf & _).
  fold b in Hr, Hf. fold r in Hr, Hf.
  split; [exact Hr|]. rewrite Hf. split.
  - apply lookup_insert_eq.
  - intros q Hq. by apply lookup_insert_ne.
Qed.

(** C4: when the target exists and [overwrite] is off, [_dump] with a codec
    function changes no file and performs no file operation, and it returns
    [None] (the skip) instead of raising. *)
Theorem dump_existing_is_skipped (obj : V) (p : string) (d : pyobj (@dumper V K))
    (c v : bool) (kw : K) (w : World) :
  inspect_isfunction d = true ->
  is_Some (files w !! p) ->
  let r := _dump zlib_compress obj p d c false v kw w in
  fst r = inr None /\ files (snd r) = files w /\ trace (snd r) = trace w.
Proof.
  intros Hd Hp r. destruct d; try discriminate.
  destruct (dump_skips zlib_compress obj p f c v kw w Hp) as (Hr & Hf & Ht & _).
  by repeat split.
Qed.

(** C5: [_load] of a path that does not exist, with a codec function,
    raises the [ValueError] that reports the missing path, and reads
    nothing: the history of file operations and the files are as before. *)
Theorem load_missing_path_raises (p : string) (l : pyobj (@loader V K))
    (c v : bool) (kw : K) (w : World) :
  inspect_isfunction l = true ->
  files w !! p = None ->
  let r := _load zlib_decompress p l c v kw w in
  fst r = inl (ValueError ("'" ++ p ++ "' doesn't exist."))
  /\ trace (snd r) = trace w
  /\ files (snd r) = files w.
Proof.
  intros Hl Hp r. destruct l; try discriminate.
  destruct (load_missing zlib_decompress p f c v kw w Hp) as (Hr & Hf & Ht & _).
  by repeat split.
Qed.

(** C2: for a codec whose decoder undoes its encoder on the value, a
    [_dump] that is not skipped followed by a [_load] of the same path
    with [decompress] equal to [compress] returns the value. *)
Theorem dump_then_load_roundtrip (obj : V) (p : string) (f : @dumper V K)
    (g : @loader V K) (c o v v' : bool) (kw kw' : K) (w : World)
    (e : list byte) :
  f obj kw = inr e ->
  g e kw' = inr obj ->
  files w !! p = None \/ o = true ->
  fst (_load zlib_decompress p (PyFunction g) c v' kw'
         (snd (_dump zlib_compress obj p (PyFunction f) c o v kw w)))
  = inr obj.
Proof.
  intros He Hg Ho.
  destruct (dump_writes zlib_compress obj p f c o v kw w e He Ho)
    as (_ & Hf & _).
  set (w1 := snd (_dump zlib_compress obj p (PyFunction f) c o v kw w)) in *.
  assert (Hp : files w1 !! p = Some (if c then zlib_compress e else e)).
  { rewrite Hf. apply lookup_insert_eq. }
  destruct (load_reads zlib_decompress p g c v' kw' w1 _ Hp) as (Hr & _).
  rewrite Hr. destruct c; [by rewrite zlib_lossless|done].
Qed.

(** C6, as the code has it: with [compress] on [_dump] and [decompress] on
    [_load] both set, the value comes back.  When only [compress] was set,
    [_load] hands the compressed bytes to the decoder and gives whatever
    the decoder gives for them.  When only [decompress] is set, [_load]
    raises what [zlib.decompress] raises on the encoder's bytes, and when
    these happen to be a compressed stream it gives whatever the decoder
    gives for the decompressed data. *)
Theorem compress_flag_roundtrip_and_mismatch (obj : V) (p : string)
    (f : @dumper V K) (g : @loader V K) (o v v' : bool) (kw kw' : K)
    (w : World) (e : list byte) :
  f obj kw = inr e ->
  g e kw' = inr obj ->
  files w !! p = None \/ o = true ->
  let dumped c := snd (_dump zlib_compress obj p (PyFunction f) c o v kw w) in
  fst (_load zlib_decompress p (PyFunction g) true v' kw' (dumped true))
  = inr obj
  /\ fst (_load zlib_decompress p (PyFunction g) false v' kw' (dumped true))
     = g (zlib_compress e) kw'
  /\ fst (_load zlib_decompress p (PyFunction g) true v' kw' (dumped false))
     = match zlib_decompress e with
       | inl x => inl x
       | inr b => g b kw'
       end.
Proof.
  intros He Hg Ho dumped.
  assert (Hp : forall c,
             files (dumped c) !! p = Some (if c then zlib_compress e else e)).
  { intros c. unfold dumped.
    destruct (dump_writes zlib_compress obj p f c o v kw w e He Ho)
      as (_ & Hf & _).
    rewrite Hf. apply lookup_insert_eq. }
  split; [|split].
  - destruct (load_reads zlib_decompress p g true v' kw' _ _ (Hp true)) as (Hr & _).
    rewrite Hr. by rewrite zlib_lossless.
  - by destruct (load_reads zlib_decompress p g false v' kw' _ _ (Hp true))
      as (Hr & _).
  - by destruct (load_reads zlib_decompress p g true v' kw' _ _ (Hp false))
      as (Hr & _).
Qed.

(** C6, the second mismatch: an encoder whose bytes are themselves a
    compressed stream, dumped without compression, is loaded with
    [decompress] set without any exception. *)
Lemma decompress_of_plain_dump_may_succeed (p : string) (o v v' : bool)
    (w : World) (obj : V) (kw : K) :
  files w !! p = None \/ o = true ->
  fst (_load zlib_decompress p (PyFunction (fun _ _ => inr obj)) true v' kw
         (snd (_dump zlib_compress obj p
                 (PyFunction (fun _ _ => inr (zlib_compress [])))
                 false o v kw w)))
  = inr obj.
Proof.
  intros Ho.
  destruct (dump_writes zlib_compress obj p
              (fun _ _ => inr (zlib_compress [])) false o v kw w _ eq_refl Ho)
    as (_ & Hf & _).
  simpl in Hf.
  set (w1 := snd (_dump _ _ _ _ _ _ _ _ _)) in *.
  assert (Hp : files w1 !! p = Some (zlib_compress [])).
  { rewrite Hf. apply lookup_insert_eq. }
  destruct (load_reads zlib_decompress p (fun _ _ => inr obj) true v' kw w1 _ Hp)
    as (Hr & _).
  etrans; [exact Hr|]. by rewrite zlib_lossless.
Qed.

End Persistence.

(** ** Which codec objects are accepted, and when *)

Section Binding.

Context {V K : Type}.
Variable zlib_compress : list byte -> list byte.
Variable zlib_decompress : list byte -> exn + list byte.

Lemma isfunction_callable {F} (o : pyobj F) :
  inspect_isfunction o = true -> callable o = true.
Proof. by destruct o. Qed.

Lemma safe_dump_rejects (obj : V) (p : string) (d : pyobj (@dumper V K))
    (c v : bool) (kw : K) (w : World) :
  inspect_isfunction d = false ->
  _safe_dump zlib_compress obj p d c v kw w
  = (inl (TypeError
       "dumper_func has to be a function take object as input and return binary!"),
     w).
Proof. intros H. unfold _safe_dump, bind. by rewrite dump_rejects. Qed.

(** C10: a codec object that can be called but is not a plain function (a
    built-in, a bound method, a class, a partial object) is refused by
    [_dump] and by [_load] exactly as [None] is: the same [TypeError], with
    the world untouched.  In [_load] this holds in every world, so also
    when the path is missing: the check on the codec comes first.  Every
    plain function can be called, so the check accepts strictly less than
    [callable] does. *)
Theorem callable_but_not_function_rejected (obj : V) (p : string)
    (d : pyobj (@dumper V K)) (l : pyobj (@loader V K)) (c o v : bool)
    (kw : K) (w : World) :
  callable d = true -> inspect_isfunction d = false ->
  callable l = true -> inspect_isfunction l = false ->
  (_dump zlib_compress obj p d c o v kw w
   = (inl (TypeError
        "dumper_func has to be a function take object as input and return binary!"),
      w)
   /\ _dump zlib_compress obj p d c o v kw w
      = _dump zlib_compress obj p PyNone c o v kw w)
  /\ (_load zlib_decompress p l c v kw w
      = (inl (TypeError
           "loader_func has to be a function take binary as input and return an object!"),
         w)
      /\ _load zlib_decompress p l c v kw w
         = _load zlib_decompress p PyNone c v kw w)
  /\ (forall o' : pyobj (@dumper V K),
        inspect_isfunction o' = true -> callable o' = true).
Proof.
  intros _ Hd _ Hl. split; [|split].
  - rewrite (dump_rejects zlib_compress obj p d c o v kw w Hd).
    by rewrite (dump_rejects zlib_compress obj p PyNone c o v kw w eq_refl).
  - rewrite (load_rejects zlib_decompress p l c v kw w Hl).
    by rewrite (load_rejects zlib_decompress p PyNone c v kw w eq_refl).
  - intros o'. apply isfunction_callable.
Qed.

(** C7, as the code has it: binding never fails and never looks at the
    function it is given.  Each decorator returns its wrapper and leaves
    the world as it is; the wrapper is the engine operation with the
    function filled in, so a function that is not a plain function is
    refused with [TypeError] by every call of the wrapper, before any file
    operation. *)
Theorem binding_defers_validation (d : pyobj (@dumper V K))
    (l : pyobj (@loader V K)) (w : World) :
  (exists wrapper,
     dump_func zlib_compress d w = (inr wrapper, w)
     /\ (forall obj p c o v kw w',
           wrapper obj p c o v kw w' = _dump zlib_compress obj p d c o v kw w')
     /\ (inspect_isfunction d = false ->
         forall obj p c o v kw w',
           exists msg, wrapper obj p c o v kw w' = (inl (TypeError msg), w')))
  /\ (exists wrapper,
        safe_dump_func zlib_compress d w = (inr wrapper, w)
        /\ (forall obj p c v kw w',
              wrapper obj p c v kw w' = _safe_dump zlib_compress obj p d c v kw w')
        /\ (inspect_isfunction d = false ->
            forall obj p c v kw w',
              exists msg, wrapper obj p c v kw w' = (inl (TypeError msg), w')))
  /\ (exists wrapper,
        load_func zlib_decompress l w = (inr wrapper, w)
        /\ (forall p c v kw w',
              wrapper p c v kw w' = _load zlib_decompress p l c v kw w')
        /\ (inspect_isfunction l = false ->
            forall p c v kw w',
              exists msg, wrapper p c v kw w' = (inl (TypeError msg), w'))).
Proof.
  split; [|split]; eexists; (split; [reflexivity|]); (split; [reflexivity|]).
  - intros Hd obj p c o v kw w'. eexists. by apply dump_rejects.
  - intros Hd obj p c v kw w'. eexists. by apply safe_dump_rejects.
  - intros Hl p c v kw w'. eexists. by apply load_rejects.
Qed.

(** C8, as the code has it: on an existing target with [overwrite] off,
    [_dump] returns normally, without raising, and what it returns is
    [None]; the same call with [overwrite] set writes and returns the
    written bytes.  The two results are both plain returns, and they
    differ in shape: [None] against a byte string. *)
Theorem skip_returns_none_not_bytes (obj : V) (p : string) (f : @dumper V K)
    (c v : bool) (kw : K) (w : World) (e : list byte) :
  f obj kw = inr e ->
  is_Some (files w !! p) ->
  let skipped := fst (_dump zlib_compress obj p (PyFunction f) c false v kw w) in
  let written := fst (_dump zlib_compress obj p (PyFunction f) c true v kw w) in
  skipped = inr None
  /\ written = inr (Some (if c then zlib_compress e else e))
  /\ shape_of skipped = ReturnsNone
  /\ shape_of written = ReturnsBytes.
Proof.
  intros He Hp skipped written.
  destruct (dump_skips zlib_compress obj p f c v kw w Hp) as (Hs & _).
  destruct (dump_writes zlib_compress obj p f c true v kw w e He
              (or_intror eq_refl)) as (Hw & _).
  fold skipped in Hs. fold written in Hw.
  rewrite Hs, Hw. by repeat split.
Qed.

End Binding.

(** ** Replacing a file atomically *)

(** What [shutil.move] of the temporary file [tmp], holding [b], onto
    [p] issues: one rename, or, when the rename is refused, the copy of
    [tmp] into [p] and the removal of [tmp]. *)
Definition move_calls (refused : bool) (tmp p : string) (b : list byte)
  : list syscall :=
  if refused then (copy_calls tmp p b ++ [SysUnlink tmp])%list
  else [SysRename tmp p].

(** A computation that leaves the system's treatment of renames as it
    is. *)
Definition keeps_policy {A} (m : M A) : Prop :=
  forall w, os_rename_refused (snd (m w)) = os_rename_refused w.

Section Atomicity.

Context {V K : Type}.
Variable zlib_compress : list byte -> list byte.

Lemma issued_exact {A} (m : M A) (w : World) (calls : list syscall) :
  trace (snd (m w)) = (trace w ++ calls)%list -> issued m w = calls.
Proof. intros H. unfold issued. rewrite H. apply drop_app_length. Qed.

Lemma issued_none {A} (m : M A) (w : World) :
  trace (snd (m w)) = trace w -> issued m w = [].
Proof. intros H. apply issued_exact. by rewrite app_nil_r. Qed.

Lemma payload_not_function (d : pyobj (@dumper V K)) (obj : V) (c : bool)
    (kw : K) :
  inspect_isfunction d = false -> payload zlib_compress d obj c kw = None.
Proof. by destruct d. Qed.

Lemma fs_run_copy_calls (src dst : string) (b : list byte)
    (fs : gmap string (list byte)) :
  fs_run (copy_calls src dst b) fs = <[dst := b]> fs.
Proof. apply (fs_run_fill dst b fs). Qed.

(** However the move is carried out, it ends with [b] at [p] and without
    [tmp]. *)
Lemma move_result (refused : bool) (tmp p : string) (b : list byte)
    (fs : gmap string (list byte)) :
  fs !! tmp = Some b -> tmp <> p ->
  fs_run (move_calls refused tmp p b) fs = <[p := b]> (delete tmp fs).
Proof.
  intros Ht Hne. destruct refused; unfold move_calls.
  - rewrite fs_run_app, fs_run_copy_calls. unfold fs_run. simpl.
    by rewrite delete_insert_ne.
  - unfold fs_run. simpl. by rewrite Ht.
Qed.

Lemma shutil_move_run (src dst : string) (b : list byte) (w : World) :
  files w !! src = Some b -> src <> dst ->
  shutil_move src dst w
  = (inr tt,
     fold_left exec
       (move_calls (os_rename_refused w (files w) src dst) src dst b) w).
Proof.
  intros Hs Hne. unfold shutil_move, os_rename. rewrite Hs.
  destruct (os_rename_refused w (files w) src dst); [|done].
  unfold bind, shutil_copy2. rewrite Hs.
  destruct (decide (src = dst)); [done|].
  unfold os_unlink, move_calls.
  rewrite exec_all_files, fs_run_copy_calls, lookup_insert_ne by done.
  rewrite Hs. by rewrite fold_left_app.
Qed.

Lemma keeps_policy_bind {A B} (m : M A) (k : A -> M B) :
  keeps_policy m -> (forall a, keeps_policy (k a)) -> keeps_policy (bind m k).
Proof.
  intros Hm Hk w. unfold bind. specialize (Hm w).
  destruct (m w) as [[e|a] w1]; simpl in *; [done|].
  by rewrite Hk.
Qed.

Lemma keeps_policy_prt_console (msg : string) (v : bool) :
  keeps_policy (prt_console msg v).
Proof. intros w. by destruct v. Qed.

Lemma keeps_policy_write_file (p : string) (b : list byte) :
  keeps_policy (write_file p b).
Proof. intros w. unfold write_file. cbn [snd]. apply exec_all_refused. Qed.

Lemma dump_keeps_rename_policy (obj : V) (p : string) (d : pyobj (@dumper V K))
    (c o v : bool) (kw : K) (w : World) :
  os_rename_refused (snd (_dump zlib_compress obj p d c o v kw w))
  = os_rename_refused w.
Proof.
  revert w. change (keeps_policy (_dump zlib_compress obj p d c o v kw)).
  unfold _dump. destruct (negb (inspect_isfunction d)); [by intros w|].
  apply keeps_policy_bind; [apply keeps_policy_prt_console|intros _].
  apply keeps_policy_bind; [by intros w|intros found].
  destruct (found && negb o).
  - apply keeps_policy_bind; [apply keeps_policy_prt_console|intros _].
    by intros w.
  - apply keeps_policy_bind; [by intros w|intros st].
    apply keeps_policy_bind;
      [unfold py_call; destruct d; intros w; reflexivity|intros b].
    apply keeps_policy_bind; [apply keeps_policy_write_file|intros _].
    apply keeps_policy_bind; [by intros w|intros now].
    apply keeps_policy_bind; [apply keeps_policy_prt_console|intros _].
    by intros w.
Qed.

(** The state of the files after the first [k] operations of a
    replacement of [p] by [b] that ends in a rename: [p] is as it was or
    holds [b], and only the temporary file differs besides. *)
Lemma replacement_prefix (p : string) (b : list byte) (k : nat)
    (fs0 : gmap string (list byte)) :
  let tmp := p ++ ".tmp" in
  let fs := fs_run (take k (write_calls tmp b ++ [SysRename tmp p])) fs0 in
  (fs !! p = fs0 !! p \/ fs !! p = Some b)
  /\ (forall q, q <> p -> q <> tmp -> fs !! q = fs0 !! q).
Proof.
  intros tmp fs. subst fs.
  destruct (decide (k <= length (write_calls tmp b))%nat) as [Hk|Hk].
  - rewrite take_app_le by done. split.
    + left. apply fs_run_write_prefix_other.
      intros Heq. by apply (temp_name_fresh p).
    + intros q _ Hq. by apply fs_run_write_prefix_other.
  - rewrite take_ge by (rewrite length_app; simpl in *; lia).
    rewrite fs_run_app, fs_run_write_calls.
    unfold fs_run. simpl. rewrite lookup_insert_eq. split.
    + right. apply lookup_insert_eq.
    + intros q Hp Hq.
      rewrite lookup_insert_ne by done. rewrite lookup_delete_ne by done.
      by rewrite lookup_insert_ne.
Qed.

(** [_safe_dump], case by case on what there is to write. *)
Lemma safe_dump_run (obj : V) (p : string) (d : pyobj (@dumper V K))
    (c v : bool) (kw : K) (w : World) :
  let tmp := p ++ ".tmp" in
  let r := _safe_dump zlib_compress obj p d c v kw w in
  match payload zlib_compress d obj c kw with
  | Some b =>
      let refused := os_rename_refused w (<[tmp := b]> (files w)) tmp p in
      fst r = inr (Some b)
      /\ files (snd r)
         = fs_run (write_calls tmp b ++ move_calls refused tmp p b) (files w)
      /\ trace (snd r)
         = (trace w ++ write_calls tmp b ++ move_calls refused tmp p b)%list
  | None =>
      (exists x, fst r = inl x)
      /\ files (snd r) = files w /\ trace (snd r) = trace w
  end.
Proof.
  intros tmp r.
  destruct (inspect_isfunction d) eqn:Hd.
  - destruct d; try discriminate. simpl. subst r. unfold _safe_dump, bind.
    fold tmp.
    destruct (f obj kw) as [x|e] eqn:He.
    + destruct (dump_codec_raises zlib_compress obj tmp f c true v kw w x He
                  (or_intror eq_refl)) as (Hr & Hf & Ht).
      destruct (_dump zlib_compress obj tmp (PyFunction f) c true v kw w)
        as [r1 w1]. simpl in *. subst r1. simpl. eauto.
    + destruct (dump_writes zlib_compress obj tmp f c true v kw w e He
                  (or_intror eq_refl)) as (Hr & Hf & Ht & _).
      pose proof (dump_keeps_rename_policy obj tmp (PyFunction f) c true v kw w)
        as Ho.
      destruct (_dump zlib_compress obj tmp (PyFunction f) c true v kw w)
        as [r1 w1]. cbn [fst snd] in *. subst r1.
      set (b := if c then zlib_compress e else e) in *.
      assert (Hs : files w1 !! tmp = Some b).
      { rewrite Hf. apply lookup_insert_eq. }
      rewrite (shutil_move_run tmp p b w1 Hs (temp_name_fresh p)).
      cbn [fst snd ret].
      rewrite exec_all_files, exec_all_trace, Ho, Hf, Ht.
      rewrite fs_run_app, fs_run_fill. unfold write_calls.
      by rewrite <- app_assoc.
  - rewrite payload_not_function by done. subst r.
    rewrite safe_dump_rejects by done. simpl. eauto.
Qed.

Lemma dump_to_temp_issued (obj : V) (p : string) (d : pyobj (@dumper V K))
    (c v : bool) (kw : K) (w : World) :
  issued (_dump zlib_compress obj p d c true v kw) w
  = match payload zlib_compress d obj c kw with
    | Some b => write_calls p b
    | None => []
    end.
Proof.
  destruct (inspect_isfunction d) eqn:Hd.
  - destruct d; try discriminate. simpl.
    destruct (f obj kw) as [x|e] eqn:He.
    + apply issued_none.
      by destruct (dump_codec_raises zlib_compress obj p f c true v kw w x He
                     (or_intror eq_refl)) as (_ & _ & Ht).
    + apply issued_exact.
      by destruct (dump_writes zlib_compress obj p f c true v kw w e He
                     (or_intror eq_refl)) as (_ & _ & Ht & _).
  - rewrite payload_not_function by done. apply issued_none.
    by rewrite dump_rejects.
Qed.

(** X20: where the system does not refuse to rename [<path>.tmp] onto
    [<path>], [_safe_dump] is atomic, for every value, path, codec object
    and options.  It issues the operations of [_dump] on [<path>.tmp] with
    [overwrite] forced and then, last, one rename; nothing is issued when
    the codec is refused or raises.  Its final files are the result of
    these operations.  After any number [k] of them (the points at which
    the call can be interrupted) the target holds what it held before or
    the complete new bytes, which are the ones returned, and no file other
    than the target and [<path>.tmp] differs from before. *)
Theorem safe_dump_atomic (obj : V) (p : string) (d : pyobj (@dumper V K))
    (c v : bool) (kw : K) (w : World) (k : nat) :
  (forall fs, os_rename_refused w fs (p ++ ".tmp") p = false) ->
  let tmp := p ++ ".tmp" in
  let r := _safe_dump zlib_compress obj p d c v kw w in
  let calls := issued (_safe_dump zlib_compress obj p d c v kw) w in
  let fs := fs_run (take k calls) (files w) in
  calls = (issued (_dump zlib_compress obj tmp d c true v kw) w
             ++ match payload zlib_compress d obj c kw with
                | Some _ => [SysRename tmp p]
                | None => []
                end)%list
  /\ issued (_dump zlib_compress obj tmp d c true v kw) w
     = match payload zlib_compress d obj c kw with
       | Some b => write_calls tmp b
       | None => []
       end
  /\ trace (snd r) = (trace w ++ calls)%list
  /\ files (snd r) = fs_run calls (files w)
  /\ (fs !! p = files w !! p
      \/ exists b, payload zlib_compress d obj c kw = Some b
                   /\ fst r = inr (Some b) /\ fs !! p = Some b)
  /\ (forall q, q <> p -> q <> tmp -> fs !! q = files w !! q).
Proof.
  intros Hok tmp r calls fs.
  pose proof (safe_dump_run obj p d c v kw w) as Hrun.
  pose proof (dump_to_temp_issued obj tmp d c v kw w) as Hdump.
  fold tmp in Hrun. fold r in Hrun.
  destruct (payload zlib_compress d obj c kw) as [b|].
  - cbv zeta in Hrun. unfold tmp in Hrun at 1. rewrite Hok in Hrun.
    unfold move_calls in Hrun.
    destruct Hrun as (Hr & Hf & Ht).
    assert (Hcalls : calls = (write_calls tmp b ++ [SysRename tmp p])%list).
    { by apply issued_exact. }
    subst fs. rewrite Hcalls, Hdump.
    destruct (replacement_prefix p b k (files w)) as [Hp Hq].
    repeat split; try done.
    destruct Hp as [Hp|Hp]; [by left|right; eauto].
  - destruct Hrun as (_ & Hf & Ht).
    assert (Hcalls : calls = []) by by apply issued_none.
    subst fs. rewrite Hcalls, Hdump, take_nil. simpl.
    rewrite app_nil_r. repeat split; try done. by left.
Qed.

(** C1, where the code departs from it: when the system refuses the
    rename of [<path>.tmp] onto [<path>] (as Windows does whenever the
    target exists), [shutil.move] copies the temporary file into the
    target and removes it.  [_safe_dump] then issues, after the operations
    that fill [<path>.tmp], the opening of the target for writing, the
    read of [<path>.tmp], one write per byte and the removal of
    [<path>.tmp]; and once the target is open and [j] bytes are copied it
    holds exactly the first [j] bytes of the new content: empty at first,
    partial until the last byte.  The call still returns the bytes. *)
Theorem safe_dump_copies_in_place_when_rename_refused (obj : V) (p : string)
    (d : pyobj (@dumper V K)) (c v : bool) (kw : K) (w : World)
    (b : list byte) (j : nat) :
  payload zlib_compress d obj c kw = Some b ->
  os_rename_refused w (<[p ++ ".tmp" := b]> (files w)) (p ++ ".tmp") p = true ->
  (j <= length b)%nat ->
  let tmp := p ++ ".tmp" in
  let r := _safe_dump zlib_compress obj p d c v kw w in
  let calls := issued (_safe_dump zlib_compress obj p d c v kw) w in
  calls = (write_calls tmp b
             ++ SysCreat p :: SysRead tmp :: map (SysWrite p) b
             ++ [SysUnlink tmp])%list
  /\ fst r = inr (Some b)
  /\ fs_run (take (length (write_calls tmp b) + 2 + j) calls) (files w) !! p
     = Some (take j b).
Proof.
  intros Hpay Hrefused Hj tmp r calls.
  pose proof (safe_dump_run obj p d c v kw w) as Hrun.
  fold tmp in Hrun. fold r in Hrun. rewrite Hpay in Hrun.
  cbv zeta in Hrun. fold tmp in Hrefused. rewrite Hrefused in Hrun.
  destruct Hrun as (Hr & _ & Ht).
  assert (Hcalls : calls = (write_calls tmp b
                              ++ SysCreat p :: SysRead tmp :: map (SysWrite p) b
                              ++ [SysUnlink tmp])%list).
  { by apply issued_exact. }
  split; [exact Hcalls|]. split; [exact Hr|].
  rewrite Hcalls. rewrite <- Nat.add_assoc, take_app_add.
  rewrite fs_run_app, fs_run_write_calls.
  change (take (2 + j) (SysCreat p :: SysRead tmp
                          :: map (SysWrite p) b ++ [SysUnlink tmp]))%list
    with (SysCreat p :: SysRead tmp
            :: take j (map (SysWrite p) b ++ [SysUnlink tmp]))%list.
  rewrite take_app_le by (by rewrite length_map).
  rewrite firstn_map.
  change (fs_run (SysCreat p :: SysRead tmp :: map (SysWrite p) (take j b))
            (<[tmp := b]> (files w)))
    with (fs_run (map (SysWrite p) (take j b))
            (<[p := []]> (<[tmp := b]> (files w)))).
  rewrite fs_run_fill. apply lookup_insert_eq.
Qed.

End Atomicity.

(** ** The engine on concrete inputs *)

Section Runs.

Context {V K : Type}.
Variable zlib_compress : list byte -> list byte.
Variable zlib_decompress : list byte -> exn + list byte.

(** What a [_load] gives after a [_dump] that wrote, for any pair of
    flags. *)
Lemma load_after_dump (obj : V) (p : string) (f : @dumper V K) (g : @loader V K)
    (c c' o v v' : bool) (kw kw' : K) (w : World) (e : list byte) :
  f obj kw = inr e ->
  files w !! p = None \/ o = true ->
  fst (_load zlib_decompress p (PyFunction g) c' v' kw'
         (snd (_dump zlib_compress obj p (PyFunction f) c o v kw w)))
  = (if c' then
       match zlib_decompress (if c then zlib_compress e else e) with
       | inl x => inl x
       | inr b => g b kw'
       end
     else g (if c then zlib_compress e else e) kw').
Proof.
  intros He Ho.
  destruct (dump_writes zlib_compress obj p f c o v kw w e He Ho)
    as (_ & Hf & _).
  set (w1 := snd (_dump zlib_compress obj p (PyFunction f) c o v kw w)) in *.
  assert (Hp : files w1 !! p = Some (if c then zlib_compress e else e)).
  { rewrite Hf. apply lookup_insert_eq. }
  by destruct (load_reads zlib_decompress p g c' v' kw' w1 _ Hp) as (Hr & _).
Qed.

End Runs.

Example marker_lossless (b : list byte) :
  marker_decompress (marker_compress b) = inr b.
Proof. reflexivity. Qed.

Example dump_then_load_run :
  fst (_load marker_decompress "g" (PyFunction raw_loads) true true tt
         (snd (_dump marker_compress [x03; x04] "g" (PyFunction raw_dumps)
                 true false true tt busy_world)))
  = inr [x03; x04].
Proof. vm_compute. reflexivity. Qed.

Example dump_console_run :
  console (snd (_dump marker_compress [x03] "g" (PyFunction raw_dumps)
                  false false true tt busy_world))
  = [LF ++ "Dump to 'g' ..."; "    Complete! Elapse 0.000015 sec."].
Proof. vm_compute. reflexivity. Qed.

(** Interrupted after the file was created and one byte written, a plain
    [_dump] over an existing file has already destroyed it, while
    [_safe_dump] has only touched the temporary file. *)
Example dump_interrupted_run :
  fs_run (take 2 (issued (_dump marker_compress [x03; x04] "f"
                            (PyFunction raw_dumps) true true false tt)
                    busy_world))
    (files busy_world) !! "f"
  = Some [x78].
Proof. vm_compute. reflexivity. Qed.

Example safe_dump_interrupted_run :
  let fs := fs_run (take 2 (issued (_safe_dump marker_compress [x03; x04] "f"
                                      (PyFunction raw_dumps) true false tt)
                              busy_world))
              (files busy_world) in
  fs !! "f" = Some [x01; x02] /\ fs !! "f.tmp" = Some [x78].
Proof. vm_compute. split; reflexivity. Qed.

Example safe_dump_complete_run :
  let w := snd (_safe_dump marker_compress [x03; x04] "f"
                  (PyFunction raw_dumps) true false tt busy_world) in
  files w !! "f" = Some [x78; x03; x04] /\ files w !! "f.tmp" = None.
Proof. vm_compute. split; reflexivity. Qed.

(** ** Instances of the theorems, and where the specification differs *)

Lemma dump_stores_encoder_output_witness :
  raw_dumps [x03] tt = inr [x03]
  /\ (files busy_world !! "f" = None \/ true = true)
  /\ fst (_dump marker_compress [x03] "f" (PyFunction raw_dumps)
            true true false tt busy_world)
     = inr (Some [x78; x03])
  /\ files (snd (_dump marker_compress [x03] "f" (PyFunction raw_dumps)
                   true true false tt busy_world)) !! "f"
     = Some [x78; x03].
Proof.
  split; [reflexivity|]. split; [right; reflexivity|].
  pose proof (dump_stores_encoder_output marker_compress [x03] "f" raw_dumps
                true true false tt busy_world [x03] eq_refl
                (or_intror eq_refl)) as H.
  split; [exact (proj1 H)|exact (proj1 (proj2 H))].
Defined.

Lemma dump_existing_is_skipped_witness :
  inspect_isfunction (PyFunction raw_dumps) = true
  /\ is_Some (files busy_world !! "f")
  /\ fst (_dump marker_compress [x03] "f" (PyFunction raw_dumps)
            true false true tt busy_world)
     = inr None
  /\ files (snd (_dump marker_compress [x03] "f" (PyFunction raw_dumps)
                   true false true tt busy_world))
     = files busy_world.
Proof.
  split; [reflexivity|].
  assert (Hp : is_Some (files busy_world !! "f")).
  { exists [x01; x02]. vm_compute. reflexivity. }
  split; [exact Hp|].
  pose proof (dump_existing_is_skipped marker_compress [x03] "f"
                (PyFunction raw_dumps) true true tt busy_world eq_refl Hp) as H.
  split; [exact (proj1 H)|exact (proj1 (proj2 H))].
Defined.

Lemma load_missing_path_raises_witness :
  inspect_isfunction (PyFunction raw_loads) = true
  /\ files busy_world !! "g" = None
  /\ fst (_load marker_decompress "g" (PyFunction raw_loads)
            true false tt busy_world)
     = inl (ValueError "'g' doesn't exist.")
  /\ trace (snd (_load marker_decompress "g" (PyFunction raw_loads)
                   true false tt busy_world))
     = trace busy_world.
Proof.
  split; [reflexivity|].
  assert (Hp : files busy_world !! "g" = None) by (vm_compute; reflexivity).
  split; [exact Hp|].
  pose proof (load_missing_path_raises marker_decompress "g"
                (PyFunction raw_loads) true false tt busy_world eq_refl Hp) as H.
  split; [exact (proj1 H)|exact (proj1 (proj2 H))].
Defined.

Lemma dump_then_load_roundtrip_witness :
  (forall b, marker_decompress (marker_compress b) = inr b)
  /\ raw_dumps [x03; x04] tt = inr [x03; x04]
  /\ raw_loads [x03; x04] tt = inr [x03; x04]
  /\ (files busy_world !! "f" = None \/ true = true)
  /\ fst (_load marker_decompress "f" (PyFunction raw_loads) true false tt
            (snd (_dump marker_compress [x03; x04] "f" (PyFunction raw_dumps)
                    true true false tt busy_world)))
     = inr [x03; x04].
Proof.
  split; [intros b; reflexivity|].
  split; [reflexivity|]. split; [reflexivity|]. split; [right; reflexivity|].
  exact (dump_then_load_roundtrip marker_compress marker_decompress
           (fun b => eq_refl) [x03; x04] "f" raw_dumps raw_loads
           true true false false tt tt busy_world [x03; x04]
           eq_refl eq_refl (or_intror eq_refl)).
Defined.

Lemma compress_flag_roundtrip_and_mismatch_witness :
  (forall b, marker_decompress (marker_compress b) = inr b)
  /\ raw_dumps [x03; x04] tt = inr [x03; x04]
  /\ raw_loads [x03; x04] tt = inr [x03; x04]
  /\ files busy_world !! "g" = None
  /\ fst (_load marker_decompress "g" (PyFunction raw_loads) true false tt
            (snd (_dump marker_compress [x03; x04] "g" (PyFunction raw_dumps)
                    true false false tt busy_world)))
     = inr [x03; x04]
  /\ fst (_load marker_decompress "g" (PyFunction raw_loads) false false tt
            (snd (_dump marker_compress [x03; x04] "g" (PyFunction raw_dumps)
                    true false false tt busy_world)))
     = inr [x78; x03; x04]
  /\ fst (_load marker_decompress "g" (PyFunction raw_loads) true false tt
            (snd (_dump marker_compress [x03; x04] "g" (PyFunction raw_dumps)
                    false false false tt busy_world)))
     = inl zlib_error.
Proof.
  split; [intros b; reflexivity|].
  split; [reflexivity|]. split; [reflexivity|].
  assert (Hp : files busy_world !! "g" = None) by (vm_compute; reflexivity).
  split; [exact Hp|].
  exact (compress_flag_roundtrip_and_mismatch marker_compress marker_decompress
           (fun b => eq_refl) [x03; x04] "g" raw_dumps raw_loads
           false false false tt tt busy_world [x03; x04]
           eq_refl eq_refl (or_introl Hp)).
Defined.

(** C6 as stated fails: whatever zlib does, loading without decompression
    what was dumped with compression does not raise for the codec that
    stores byte strings as they are; the compressed bytes come back. *)
Lemma mismatched_flags_need_not_raise :
  ~ exists (zc : list byte -> list byte) (zd : list byte -> exn + list byte),
      forall (p : string) (w : World),
        files w !! p = None ->
        raised (fst (_load zd p (PyFunction raw_loads) false false tt
                       (snd (_dump zc [x01] p (PyFunction raw_dumps)
                               true false false tt w))))
        = true.
Proof.
  intros (zc & zd & H).
  specialize (H "f" empty_world eq_refl).
  pose proof (load_after_dump zc zd [x01] "f" raw_dumps raw_loads
                true false false false false tt tt empty_world [x01]
                eq_refl (or_introl eq_refl)) as E.
  apply (f_equal raised) in E. simpl in E.
  discriminate (eq_trans (eq_sym H) E).
Qed.

Lemma callable_but_not_function_rejected_witness :
  callable (PyBuiltin raw_dumps) = true
  /\ inspect_isfunction (PyBuiltin raw_dumps) = false
  /\ callable (PyPartial raw_loads) = true
  /\ inspect_isfunction (PyPartial raw_loads) = false
  /\ fst (_dump marker_compress [x03] "g" (PyBuiltin raw_dumps)
            true false false tt busy_world)
     = inl (TypeError
         "dumper_func has to be a function take object as input and return binary!")
  /\ fst (_load marker_decompress "g" (PyPartial raw_loads)
            true false tt busy_world)
     = inl (TypeError
         "loader_func has to be a function take binary as input and return an object!").
Proof.
  do 4 (split; [reflexivity|]).
  pose proof (callable_but_not_function_rejected marker_compress
                marker_decompress [x03] "g" (PyBuiltin raw_dumps)
                (PyPartial raw_loads) true false false tt busy_world
                eq_refl eq_refl eq_refl eq_refl) as H.
  split.
  - exact (f_equal fst (proj1 (proj1 H))).
  - exact (f_equal fst (proj1 (proj1 (proj2 H)))).
Defined.

(** C7 as stated fails: binding [None] with any of the three decorators
    raises nothing. *)
Lemma binding_none_does_not_raise :
  inspect_isfunction (@PyNone (@dumper (list byte) unit)) = false
  /\ raised (fst (dump_func marker_compress
                    (@PyNone (@dumper (list byte) unit)) empty_world))
     = false
  /\ raised (fst (safe_dump_func marker_compress
                    (@PyNone (@dumper (list byte) unit)) empty_world))
     = false
  /\ raised (fst (load_func marker_decompress
                    (@PyNone (@loader (list byte) unit)) empty_world))
     = false.
Proof. by repeat split. Qed.

Lemma skip_returns_none_not_bytes_witness :
  raw_dumps [x03] tt = inr [x03]
  /\ is_Some (files busy_world !! "f")
  /\ fst (_dump marker_compress [x03] "f" (PyFunction raw_dumps)
            true false false tt busy_world)
     = inr None
  /\ fst (_dump marker_compress [x03] "f" (PyFunction raw_dumps)
            true true false tt busy_world)
     = inr (Some [x78; x03]).
Proof.
  split; [reflexivity|].
  assert (Hp : is_Some (files busy_world !! "f")).
  { exists [x01; x02]. vm_compute. reflexivity. }
  split; [exact Hp|].
  pose proof (skip_returns_none_not_bytes marker_compress [x03] "f" raw_dumps
                true false tt busy_world [x03] eq_refl Hp) as H.
  split; [exact (proj1 H)|exact (proj1 (proj2 H))].
Defined.

(** C8 as stated fails: on the existing file ["f"] the skipped call and the
    call that writes do not return results of the same shape. *)
Lemma skip_and_write_differ_in_shape :
  shape_of (fst (_dump marker_compress [x03] "f" (PyFunction raw_dumps)
                   true false false tt busy_world))
  <> shape_of (fst (_dump marker_compress [x03] "f" (PyFunction raw_dumps)
                      true true false tt busy_world)).
Proof. vm_compute. discriminate. Qed.

(** * Further properties of the engine *)

Section Frames.

Context {V K : Type}.
Variable zlib_compress : list byte -> list byte.
Variable zlib_decompress : list byte -> exn + list byte.

(** The four ways a call of [_dump] can go. *)
Inductive dump_case (obj : V) (p : string) (d : pyobj (@dumper V K))
    (c o : bool) (kw : K) (w : World) : Prop :=
| DumpRejected : inspect_isfunction d = false -> dump_case obj p d c o kw w
| DumpSkipped (f : @dumper V K) :
    d = PyFunction f -> is_Some (files w !! p) -> o = false ->
    dump_case obj p d c o kw w
| DumpRaised (f : @dumper V K) (x : exn) :
    d = PyFunction f -> files w !! p = None \/ o = true ->
    f obj kw = inl x -> dump_case obj p d c o kw w
| DumpWritten (f : @dumper V K) (e : list byte) :
    d = PyFunction f -> files w !! p = None \/ o = true ->
    f obj kw = inr e -> dump_case obj p d c o kw w.

Lemma dump_cases (obj : V) (p : string) (d : pyobj (@dumper V K))
    (c o : bool) (kw : K) (w : World) : dump_case obj p d c o kw w.
Proof.
  destruct d as [| |f|f|f|f|f]; try (by apply DumpRejected).
  destruct (files w !! p) as [old|] eqn:Hp, o.
  - destruct (f obj kw) as [x|e] eqn:He.
    + by apply (DumpRaised _ _ _ _ _ _ _ f x); [|right|].
    + by apply (DumpWritten _ _ _ _ _ _ _ f e); [|right|].
  - apply (DumpSkipped _ _ _ _ _ _ _ f); [done| |done]. rewrite Hp. eauto.
  - destruct (f obj kw) as [x|e] eqn:He.
    + by apply (DumpRaised _ _ _ _ _ _ _ f x); [|right|].
    + by apply (DumpWritten _ _ _ _ _ _ _ f e); [|right|].
  - destruct (f obj kw) as [x|e] eqn:He.
    + by apply (DumpRaised _ _ _ _ _ _ _ f x); [|left|].
    + by apply (DumpWritten _ _ _ _ _ _ _ f e); [|left|].
Qed.

(** The files after a call of [_dump]: as before, or with new content at
    the target; and the call raises, returns [None] or returns bytes. *)
Lemma dump_outcome (obj : V) (p : string) (d : pyobj (@dumper V K))
    (c o v : bool) (kw : K) (w : World) :
  let r := _dump zlib_compress obj p d c o v kw w in
  ((exists x, fst r = inl x) /\ files (snd r) = files w)
  \/ (fst r = inr None /\ files (snd r) = files w)
  \/ (exists b, fst r = inr (Some b) /\ files (snd r) = <[p := b]> (files w)).
Proof.
  intros r. subst r.
  destruct (dump_cases obj p d c o kw w)
    as [Hd|f -> Hp ->|f x -> Ho He|f e -> Ho He].
  - left. rewrite dump_rejects by done. simpl. eauto.
  - right. left.
    destruct (dump_skips zlib_compress obj p f c v kw w Hp) as (Hr & Hf & _).
    by split.
  - left.
    destruct (dump_codec_raises zlib_compress obj p f c o v kw w x He Ho)
      as (Hr & Hf & _).
    eauto.
  - right. right.
    destruct (dump_writes zlib_compress obj p f c o v kw w e He Ho)
      as (Hr & Hf & _).
    eauto.
Qed.

(** X13: whatever it is given and however it ends, [_dump] changes no
    file but its target. *)
Theorem dump_touches_only_target (obj : V) (p q : string)
    (d : pyobj (@dumper V K)) (c o v : bool) (kw : K) (w : World) :
  q <> p ->
  files (snd (_dump zlib_compress obj p d c o v kw w)) !! q = files w !! q.
Proof.
  intros Hq.
  destruct (dump_outcome obj p d c o v kw w)
    as [(_ & Hf)|[(_ & Hf)|(b & _ & Hf)]]; rewrite Hf; [done|done|].
  by apply lookup_insert_ne.
Qed.

End Frames.

Section Replacement.

Context {V K : Type}.
Variable zlib_compress : list byte -> list byte.
Variable zlib_decompress : list byte -> exn + list byte.

Hypothesis zlib_lossless :
  forall b, zlib_decompress (zlib_compress b) = inr b.

Lemma replacement_result (refused : bool) (p tmp : string) (b : list byte)
    (fs : gmap string (list byte)) :
  tmp <> p ->
  fs_run (write_calls tmp b ++ move_calls refused tmp p b) fs
  = <[p := b]> (delete tmp fs).
Proof.
  intros Hne. rewrite fs_run_app, fs_run_write_calls.
  rewrite move_result by (done || apply lookup_insert_eq).
  by rewrite delete_insert_eq.
Qed.

Lemma safe_dump_codec_raises (obj : V) (p : string) (f : @dumper V K)
    (c v : bool) (kw : K) (w : World) (x : exn) :
  f obj kw = inl x ->
  let r := _safe_dump zlib_compress obj p (PyFunction f) c v kw w in
  fst r = inl x /\ files (snd r) = files w /\ trace (snd r) = trace w.
Proof.
  intros He r. subst r. unfold _safe_dump, bind.
  destruct (dump_codec_raises zlib_compress obj (p ++ ".tmp") f c true v kw w x
              He (or_intror eq_refl)) as (Hr & Hf & Ht).
  destruct (_dump zlib_compress obj (p ++ ".tmp") (PyFunction f) c true v kw w)
    as [r1 w1].
  simpl in *. subst r1. by simpl.
Qed.

Lemma safe_dump_writes (obj : V) (p : string) (f : @dumper V K)
    (c v : bool) (kw : K) (w : World) (e : list byte) :
  f obj kw = inr e ->
  let b := if c then zlib_compress e else e in
  let r := _safe_dump zlib_compress obj p (PyFunction f) c v kw w in
  fst r = inr (Some b)
  /\ files (snd r) = <[p := b]> (delete (p ++ ".tmp") (files w)).
Proof.
  intros He b r.
  pose proof (safe_dump_run zlib_compress obj p (PyFunction f) c v kw w) as H.
  unfold payload in H. rewrite He in H. cbv zeta in H.
  destruct H as (Hr & Hf & _).
  split; [exact Hr|]. subst r. rewrite Hf.
  apply replacement_result, temp_name_fresh.
Qed.

(** X1: [_safe_dump] never skips.  Whenever the encoder returns, and
    whatever the target and [<path>.tmp] held before, the call returns the
    written bytes, the target holds exactly them, [<path>.tmp] is gone, and
    every other file is as before. *)
Theorem safe_dump_always_replaces (obj : V) (p : string) (f : @dumper V K)
    (c v : bool) (kw : K) (w : World) (e : list byte) :
  f obj kw = inr e ->
  let b := if c then zlib_compress e else e in
  let r := _safe_dump zlib_compress obj p (PyFunction f) c v kw w in
  fst r = inr (Some b)
  /\ files (snd r) !! p = Some b
  /\ files (snd r) !! (p ++ ".tmp") = None
  /\ (forall q, q <> p -> q <> p ++ ".tmp" -> files (snd r) !! q = files w !! q).
Proof.
  intros He b r.
  destruct (safe_dump_writes obj p f c v kw w e He) as (Hr & Hf).
  fold b in Hr, Hf. fold r in Hr, Hf.
  split; [exact Hr|]. rewrite Hf. split; [apply lookup_insert_eq|]. split.
  - rewrite lookup_insert_ne by (intros E; by apply (temp_name_fresh p)).
    apply lookup_delete_eq.
  - intros q Hp Hq. rewrite lookup_insert_ne by done.
    by rewrite lookup_delete_ne.
Qed.

(** X3: when the encoder raises, [_dump] (on a target it would write) and
    [_safe_dump] raise the encoder's exception as it is, and no file
    operation has happened: the target is intact and no [<path>.tmp] is
    left behind. *)
Theorem encoder_failure_leaves_no_trace (obj : V) (p : string)
    (f : @dumper V K) (c o v : bool) (kw : K) (w : World) (x : exn) :
  f obj kw = inl x ->
  files w !! p = None \/ o = true ->
  (fst (_dump zlib_compress obj p (PyFunction f) c o v kw w) = inl x
   /\ files (snd (_dump zlib_compress obj p (PyFunction f) c o v kw w))
      = files w
   /\ trace (snd (_dump zlib_compress obj p (PyFunction f) c o v kw w))
      = trace w)
  /\ (fst (_safe_dump zlib_compress obj p (PyFunction f) c v kw w) = inl x
      /\ files (snd (_safe_dump zlib_compress obj p (PyFunction f) c v kw w))
         = files w
      /\ trace (snd (_safe_dump zlib_compress obj p (PyFunction f) c v kw w))
         = trace w).
Proof.
  intros He Ho. split.
  - apply (dump_codec_raises zlib_compress obj p f c o v kw w x He Ho).
  - apply (safe_dump_codec_raises obj p f c v kw w x He).
Qed.

(** X11: [_safe_dump] followed by [_load] with the matching flag gives the
    value back in every world, whether or not the target or the temporary
    file existed. *)
Theorem safe_dump_then_load_roundtrip (obj : V) (p : string) (f : @dumper V K)
    (g : @loader V K) (c v v' : bool) (kw kw' : K) (w : World)
    (e : list byte) :
  f obj kw = inr e ->
  g e kw' = inr obj ->
  fst (_load zlib_decompress p (PyFunction g) c v' kw'
         (snd (_safe_dump zlib_compress obj p (PyFunction f) c v kw w)))
  = inr obj.
Proof.
  intros He Hg.
  destruct (safe_dump_writes obj p f c v kw w e He) as (_ & Hf).
  set (w1 := snd (_safe_dump zlib_compress obj p (PyFunction f) c v kw w)) in *.
  assert (Hp : files w1 !! p = Some (if c then zlib_compress e else e)).
  { rewrite Hf. apply lookup_insert_eq. }
  destruct (load_reads zlib_decompress p g c v' kw' w1 _ Hp) as (Hr & _).
  rewrite Hr. destruct c; [by rewrite zlib_lossless|done].
Qed.

End Replacement.

Section Loading.

Context {V K : Type}.
Variable zlib_compress : list byte -> list byte.
Variable zlib_decompress : list byte -> exn + list byte.

(** X4: [_load] never changes a file, whatever it is given and however it
    ends, and it reads at most once, and only the path it was asked for. *)
Theorem load_never_writes (p : string) (l : pyobj (@loader V K)) (c v : bool)
    (kw : K) (w : World) :
  files (snd (_load zlib_decompress p l c v kw w)) = files w
  /\ (issued (_load zlib_decompress p l c v kw) w = []
      \/ issued (_load zlib_decompress p l c v kw) w = [SysRead p]).
Proof.
  destruct (inspect_isfunction l) eqn:Hl.
  - destruct l as [| |g|g|g|g|g]; try discriminate.
    destruct (files w !! p) as [b|] eqn:Hp.
    + destruct (load_reads zlib_decompress p g c v kw w b Hp) as (_ & Hf & Ht).
      split; [exact Hf|]. right. by apply issued_exact.
    + destruct (load_missing zlib_decompress p g c v kw w Hp) as (_ & Hf & Ht & _).
      split; [exact Hf|]. left. by apply issued_none.
  - split; [by rewrite load_rejects|]. left. apply issued_none.
    by rewrite load_rejects.
Qed.

(** X5: what [_load] returns or raises is decided by the content of the
    file alone: two worlds that agree on the file at the path give the same
    outcome, so that loading again gives the same again. *)
Theorem load_depends_only_on_file (p : string) (l : pyobj (@loader V K))
    (c v v' : bool) (kw : K) (w w' : World) :
  files w !! p = files w' !! p ->
  fst (_load zlib_decompress p l c v kw w)
  = fst (_load zlib_decompress p l c v' kw w').
Proof.
  intros Hp.
  destruct (inspect_isfunction l) eqn:Hl.
  - destruct l as [| |g|g|g|g|g]; try discriminate.
    destruct (files w' !! p) as [b|] eqn:Hp'.
    + destruct (load_reads zlib_decompress p g c v kw w b Hp) as (Hr & _).
      destruct (load_reads zlib_decompress p g c v' kw w' b Hp') as (Hr' & _).
      by rewrite Hr, Hr'.
    + destruct (load_missing zlib_decompress p g c v kw w Hp) as (Hr & _).
      destruct (load_missing zlib_decompress p g c v' kw w' Hp') as (Hr' & _).
      by rewrite Hr, Hr'.
  - by rewrite !load_rejects.
Qed.

(** X14: a file that is not a compressed stream, loaded with [decompress]
    set, makes [_load] raise what [zlib.decompress] raises, whatever the
    loader is, and a loader that raises on the bytes handed to it makes
    [_load] raise the same exception; the files stay as they are. *)
Theorem load_propagates_decode_errors (p : string) (g : @loader V K)
    (v : bool) (kw : K) (w : World) (b : list byte) (x : exn) :
  files w !! p = Some b ->
  (zlib_decompress b = inl x ->
   fst (_load zlib_decompress p (PyFunction g) true v kw w) = inl x)
  /\ (g b kw = inl x ->
      fst (_load zlib_decompress p (PyFunction g) false v kw w) = inl x)
  /\ (forall b', zlib_decompress b = inr b' -> g b' kw = inl x ->
      fst (_load zlib_decompress p (PyFunction g) true v kw w) = inl x).
Proof.
  intros Hp.
  destruct (load_reads zlib_decompress p g true v kw w b Hp) as (Ht & _).
  destruct (load_reads zlib_decompress p g false v kw w b Hp) as (Hf & _).
  split; [|split].
  - intros Hz. rewrite Ht. by rewrite Hz.
  - intros Hg. rewrite Hf. by rewrite Hg.
  - intros b' Hz Hg. rewrite Ht. by rewrite Hz, Hg.
Qed.

End Loading.

Section Composition.

Context {V K : Type}.
Variable zlib_compress : list byte -> list byte.
Variable zlib_decompress : list byte -> exn + list byte.

Hypothesis zlib_lossless :
  forall b, zlib_decompress (zlib_compress b) = inr b.

(** X6: the first writer wins.  After a [_dump] that wrote, a second
    [_dump] to the same path without [overwrite] returns [None] and changes
    nothing, whatever object and encoder it is given; a [_load] then still
    gives the first value. *)
Theorem second_dump_without_overwrite_keeps_first (x y : V) (p : string)
    (f f' : @dumper V K) (g : @loader V K) (c c' o v v' v'' : bool)
    (kw kw' kw'' : K) (w : World) (e : list byte) :
  f x kw = inr e ->
  g e kw'' = inr x ->
  files w !! p = None \/ o = true ->
  let w1 := snd (_dump zlib_compress x p (PyFunction f) c o v kw w) in
  let r2 := _dump zlib_compress y p (PyFunction f') c' false v' kw' w1 in
  fst r2 = inr None
  /\ files (snd r2) = files w1
  /\ fst (_load zlib_decompress p (PyFunction g) c v'' kw'' (snd r2)) = inr x.
Proof.
  intros He Hg Ho w1 r2.
  destruct (dump_writes zlib_compress x p f c o v kw w e He Ho) as (_ & Hf & _).
  fold w1 in Hf.
  assert (Hp : files w1 !! p = Some (if c then zlib_compress e else e)).
  { rewrite Hf. apply lookup_insert_eq. }
  assert (Hex : is_Some (files w1 !! p)) by (rewrite Hp; eauto).
  destruct (dump_skips zlib_compress y p f' c' v' kw' w1 Hex) as (Hr & Hf2 & _).
  fold r2 in Hr, Hf2.
  split; [exact Hr|]. split; [exact Hf2|].
  assert (Hp2 : files (snd r2) !! p = Some (if c then zlib_compress e else e)).
  { by rewrite Hf2. }
  destruct (load_reads zlib_decompress p g c v'' kw'' (snd r2) _ Hp2) as (Hl & _).
  rewrite Hl. destruct c; [by rewrite zlib_lossless|done].
Qed.

(** X10: the last writer wins.  A [_dump] with [overwrite] set whose
    encoder returns leaves the same files whatever call of [_dump] to the
    same path went before it. *)
Theorem overwriting_dump_forgets_earlier_dump (x y : V) (p : string)
    (d : pyobj (@dumper V K)) (f : @dumper V K) (c c' o v v' : bool)
    (kw kw' : K) (w : World) (e : list byte) :
  f y kw' = inr e ->
  files (snd (_dump zlib_compress y p (PyFunction f) c' true v' kw'
                (snd (_dump zlib_compress x p d c o v kw w))))
  = files (snd (_dump zlib_compress y p (PyFunction f) c' true v' kw' w)).
Proof.
  intros He.
  set (w1 := snd (_dump zlib_compress x p d c o v kw w)).
  destruct (dump_writes zlib_compress y p f c' true v' kw' w1 e He
              (or_intror eq_refl)) as (_ & Hf1 & _).
  destruct (dump_writes zlib_compress y p f c' true v' kw' w e He
              (or_intror eq_refl)) as (_ & Hf & _).
  rewrite Hf1, Hf. apply map_eq. intros q.
  destruct (decide (q = p)) as [->|Hq].
  - by rewrite !lookup_insert_eq.
  - rewrite !lookup_insert_ne by done. subst w1.
    destruct (dump_outcome zlib_compress x p d c o v kw w)
      as [(_ & H)|[(_ & H)|(b & _ & H)]]; rewrite H; [done|done|].
    by apply lookup_insert_ne.
Qed.

(** X12: on a path that does not exist the [overwrite] flag changes
    nothing: both settings give the same result and the same world. *)
Theorem overwrite_is_irrelevant_on_fresh_path (obj : V) (p : string)
    (d : pyobj (@dumper V K)) (c v : bool) (kw : K) (w : World) :
  files w !! p = None ->
  _dump zlib_compress obj p d c false v kw w
  = _dump zlib_compress obj p d c true v kw w.
Proof.
  intros Hp. unfold _dump.
  destruct (negb (inspect_isfunction d)); [done|].
  unfold bind, prt_console, logger_info, ret, os_path_exists.
  destruct v; simpl; by rewrite (exists_false _ _ Hp).
Qed.

End Composition.

(** ** What is printed *)

(** A computation that prints nothing. *)
Definition quiet {A} (m : M A) : Prop :=
  forall w, console (snd (m w)) = console w.

(** The self-test of the module: bind the three operations to a pickle
    codec, dump an object to ["data.pk"], dump it again safely, load it and
    compare.  [py_eq] is the [==] of the objects. *)
Definition test_dump_load {V : Type}
    (zlib_compress : list byte -> list byte)
    (zlib_decompress : list byte -> exn + list byte)
    (pickle_dumps : V -> exn + list byte)
    (pickle_loads : list byte -> exn + V)
    (py_eq : V -> V -> bool) (obj : V) : M unit :=
  let* dump := dump_func zlib_compress
                 (PyFunction (fun obj (_ : unit) => pickle_dumps obj)) in
  let* safe_dump := safe_dump_func zlib_compress
                      (PyFunction (fun obj (_ : unit) => pickle_dumps obj)) in
  let* load := load_func zlib_decompress
                 (PyFunction (fun b (_ : unit) => pickle_loads b)) in
  let* b := dump obj "data.pk" true false true tt in
  let* b := safe_dump obj "data.pk" true true tt in
  let* obj1 := load "data.pk" true true tt in
  if py_eq obj obj1 then ret tt else raise (Exception "AssertionError").

Section Printing.

Lemma quiet_ret {A} (a : A) : quiet (ret a).
Proof. by intros w. Qed.

Lemma quiet_raise {A} (e : exn) : quiet (@raise A e).
Proof. by intros w. Qed.

Lemma quiet_lift {A} (r : exn + A) : quiet (lift r).
Proof. by intros w. Qed.

Lemma quiet_bind {A B} (m : M A) (k : A -> M B) :
  quiet m -> (forall a, quiet (k a)) -> quiet (bind m k).
Proof.
  intros Hm Hk w. unfold bind. specialize (Hm w).
  destruct (m w) as [[e|a] w1]; simpl in *; [done|].
  by rewrite Hk.
Qed.

Lemma quiet_prt_console (msg : string) : quiet (prt_console msg false).
Proof. by intros w. Qed.

Lemma quiet_os_path_exists (p : string) : quiet (os_path_exists p).
Proof. by intros w. Qed.

Lemma quiet_time_clock : quiet time_clock.
Proof. by intros w. Qed.

Lemma quiet_write_file (p : string) (b : list byte) : quiet (write_file p b).
Proof. intros w. unfold write_file. cbn [snd]. apply exec_all_console. Qed.

Lemma quiet_read_file (p : string) : quiet (read_file p).
Proof. intros w. unfold read_file. by destruct (files w !! p). Qed.

Lemma quiet_os_rename (src dst : string) : quiet (os_rename src dst).
Proof.
  intros w. unfold os_rename. destruct (files w !! src); [|done].
  by destruct (os_rename_refused w (files w) src dst).
Qed.

Lemma quiet_shutil_copy2 (src dst : string) : quiet (shutil_copy2 src dst).
Proof.
  intros w. unfold shutil_copy2. destruct (files w !! src); [|done].
  destruct (decide (src = dst)); [done|]. cbn [snd]. apply exec_all_console.
Qed.

Lemma quiet_os_unlink (p : string) : quiet (os_unlink p).
Proof. intros w. unfold os_unlink. by destruct (files w !! p). Qed.

Lemma quiet_shutil_move (src dst : string) : quiet (shutil_move src dst).
Proof.
  intros w. unfold shutil_move.
  pose proof (quiet_os_rename src dst w) as Hr.
  destruct (os_rename src dst w) as [[e|[]] w']; simpl in Hr; [|done].
  destruct e; try done.
  rewrite <- Hr. apply quiet_bind; [apply quiet_shutil_copy2|intros _].
  apply quiet_os_unlink.
Qed.

Lemma quiet_py_call {K A B} (o : pyobj (A -> K -> exn + B)) (x : A) (kw : K) :
  quiet (py_call o x kw).
Proof.
  unfold py_call. destruct (py_callee o); [apply quiet_lift|apply quiet_raise].
Qed.

Context {V K : Type}.
Variable zlib_compress : list byte -> list byte.
Variable zlib_decompress : list byte -> exn + list byte.

Lemma quiet_dump (obj : V) (p : string) (d : pyobj (@dumper V K))
    (c o : bool) (kw : K) :
  quiet (_dump zlib_compress obj p d c o false kw).
Proof.
  unfold _dump. destruct (negb (inspect_isfunction d)); [apply quiet_raise|].
  apply quiet_bind; [apply quiet_prt_console|intros _].
  apply quiet_bind; [apply quiet_os_path_exists|intros found].
  destruct (found && negb o).
  - apply quiet_bind; [apply quiet_prt_console|intros _]. apply quiet_ret.
  - apply quiet_bind; [apply quiet_time_clock|intros st].
    apply quiet_bind; [apply quiet_py_call|intros b].
    apply quiet_bind; [apply quiet_write_file|intros _].
    apply quiet_bind; [apply quiet_time_clock|intros now].
    apply quiet_bind; [apply quiet_prt_console|intros _]. apply quiet_ret.
Qed.

(** X8: without [verbose] nothing is printed: [_dump], [_safe_dump] and
    [_load] leave the console as it was, whatever they are given and
    however they end. *)
Theorem silent_mode_prints_nothing (obj : V) (p : string)
    (d : pyobj (@dumper V K)) (l : pyobj (@loader V K)) (c o : bool) (kw : K)
    (w : World) :
  console (snd (_dump zlib_compress obj p d c o false kw w)) = console w
  /\ console (snd (_safe_dump zlib_compress obj p d c false kw w)) = console w
  /\ console (snd (_load zlib_decompress p l c false kw w)) = console w.
Proof.
  split; [apply quiet_dump|]. split.
  - revert w. unfold _safe_dump.
    apply quiet_bind; [apply quiet_dump|intros b].
    apply quiet_bind; [apply quiet_shutil_move|intros _]. apply quiet_ret.
  - revert w. unfold _load.
    destruct (negb (inspect_isfunction l)); [apply quiet_raise|].
    apply quiet_bind; [apply quiet_prt_console|intros _].
    apply quiet_bind; [apply quiet_os_path_exists|intros found].
    destruct (negb found); [apply quiet_raise|].
    apply quiet_bind; [apply quiet_time_clock|intros st].
    apply quiet_bind; [apply quiet_read_file|intros b].
    apply quiet_bind; [destruct c; [apply quiet_lift|apply quiet_ret]|intros b'].
    apply quiet_bind; [apply quiet_py_call|intros x].
    apply quiet_bind; [apply quiet_time_clock|intros now].
    apply quiet_bind; [apply quiet_prt_console|intros _]. apply quiet_ret.
Qed.

(** X9: with [verbose], a call of [_dump] with a codec function prints the
    start notice naming the path and then one more line at most: the stop
    notice when it skips, the completion notice when it has written, with
    the time elapsed between the two readings of the clock it takes; when
    the encoder raises only the start notice is printed. *)
Theorem dump_verbose_lines (obj : V) (p : string) (f : @dumper V K)
    (c o : bool) (kw : K) (w : World) :
  console (snd (_dump zlib_compress obj p (PyFunction f) c o true kw w))
  = (console w
       ++ (LF ++ "Dump to '" ++ p ++ "' ...")%string
       :: (if bool_decide (is_Some (files w !! p)) && negb o then
             ["    Stop! File exists and overwrite is not allowed"]
           else
             match f obj kw with
             | inl _ => []
             | inr _ =>
                 [("    Complete! Elapse "
                     ++ fmt_6f (hd 0 (tl (clock w)) - hd 0 (clock w))
                     ++ " sec.")%string]
             end))%list.
Proof.
  run_engine.
  destruct (bool_decide (is_Some (files w !! p)) && negb o); simpl.
  - by rewrite <- app_assoc.
  - destruct (f obj kw) as [x|e]; simpl; [done|].
    rewrite exec_all_console, exec_all_clock. simpl. by rewrite <- app_assoc.
Qed.

End Printing.

(** ** The self-test of the module *)

Lemma bind_returns {A B} (m : M A) (k : A -> M B) (w : World) (a : A) :
  fst (m w) = inr a -> bind m k w = k a (snd (m w)).
Proof. unfold bind. destruct (m w) as [[x|a'] w']; simpl; congruence. Qed.

Section SelfTest.

Context {V : Type}.
Variable zlib_compress : list byte -> list byte.
Variable zlib_decompress : list byte -> exn + list byte.

Hypothesis zlib_lossless :
  forall b, zlib_decompress (zlib_compress b) = inr b.

(** X7: the self-test passes from every state of the file system, whether
    ["data.pk"] is missing or already there with any content: the first
    [dump] may be skipped, the [safe_dump] replaces the file in any case
    and the [load] gives the object back.  It needs a pickle that gives
    the object back and an [==] that holds of the object and itself. *)
Theorem test_dump_load_passes (pickle_dumps : V -> exn + list byte)
    (pickle_loads : list byte -> exn + V) (py_eq : V -> V -> bool) (obj : V)
    (w : World) (e : list byte) :
  pickle_dumps obj = inr e ->
  pickle_loads e = inr obj ->
  py_eq obj obj = true ->
  let r := test_dump_load zlib_compress zlib_decompress pickle_dumps
             pickle_loads py_eq obj w in
  fst r = inr tt /\ files (snd r) !! "data.pk" = Some (zlib_compress e).
Proof.
  intros He Hg Heq r. subst r.
  pose (f := (fun (o : V) (_ : unit) => pickle_dumps o) : @dumper V unit).
  pose (g := (fun (b : list byte) (_ : unit) => pickle_loads b)
             : @loader V unit).
  set (w1 := snd (_dump zlib_compress obj "data.pk" (PyFunction f)
                    true false true tt w)).
  set (w2 := snd (_safe_dump zlib_compress obj "data.pk" (PyFunction f)
                    true true tt w1)).
  assert (H1 : exists r1,
             fst (_dump zlib_compress obj "data.pk" (PyFunction f)
                    true false true tt w) = inr r1).
  { destruct (dump_cases obj "data.pk" (PyFunction f) true false tt w)
      as [Hd|f' Hf' Hp _|f' x Hf' Ho Hx|f' e' Hf' Ho He'].
    - discriminate Hd.
    - injection Hf' as <-.
      destruct (dump_skips zlib_compress obj "data.pk" f true true tt w Hp)
        as (Hr & _).
      eauto.
    - injection Hf' as <-. unfold f in Hx. congruence.
    - injection Hf' as <-.
      destruct (dump_writes zlib_compress obj "data.pk" f true false true tt
                  w e' He' Ho) as (Hr & _).
      eauto. }
  destruct H1 as [r1 H1].
  destruct (safe_dump_writes zlib_compress obj "data.pk" f true true tt w1 e He)
    as (H2 & Hf2).
  assert (Hp2 : files w2 !! "data.pk" = Some (zlib_compress e)).
  { unfold w2. rewrite Hf2. apply lookup_insert_eq. }
  destruct (load_reads zlib_decompress "data.pk" g true true tt w2 _ Hp2)
    as (H3 & Hf3 & _).
  rewrite zlib_lossless in H3. unfold g in H3 at 2. rewrite Hg in H3.
  unfold test_dump_load.
  do 3 (erewrite bind_returns by reflexivity; cbv beta).
  cbn [snd fst dump_func safe_dump_func load_func ret].
  erewrite bind_returns by exact H1. cbv beta.
  erewrite bind_returns by exact H2. cbv beta.
  erewrite bind_returns by exact H3. cbv beta.
  rewrite Heq. cbn [ret fst snd].
  split; [done|]. etrans; [|exact Hp2].
  exact (f_equal (fun m => m !! "data.pk") Hf3).
Qed.

End SelfTest.

(** ** Instances of the further properties *)

(** An encoder that refuses every object. *)
Definition failing_dumps (obj : list byte) (_ : unit) : exn + list byte :=
  inl (Exception "cannot encode").

(** A world with the files of [busy_world] and another past. *)
Definition later_world : World :=
  mkWorld (files busy_world) ["earlier line"] [] [SysRead "f"] posix_rename.

(** The [==] of byte strings. *)
Definition bytes_eqb (a b : list byte) : bool :=
  (length a =? length b)%nat
  && forallb (fun xy => Byte.eqb (fst xy) (snd xy)) (combine a b).

Lemma safe_dump_always_replaces_witness :
  raw_dumps [x03] tt = inr [x03]
  /\ fst (_safe_dump marker_compress [x03] "f" (PyFunction raw_dumps)
            true false tt busy_world)
     = inr (Some [x78; x03])
  /\ files (snd (_safe_dump marker_compress [x03] "f" (PyFunction raw_dumps)
                   true false tt busy_world)) !! "f"
     = Some [x78; x03].
Proof.
  split; [reflexivity|].
  pose proof (safe_dump_always_replaces marker_compress [x03] "f" raw_dumps
                true false tt busy_world [x03] eq_refl) as H.
  split; [exact (proj1 H)|exact (proj1 (proj2 H))].
Defined.

Lemma encoder_failure_leaves_no_trace_witness :
  failing_dumps [x03] tt = inl (Exception "cannot encode")
  /\ (files busy_world !! "f" = None \/ true = true)
  /\ fst (_safe_dump marker_compress [x03] "f" (PyFunction failing_dumps)
            true false tt busy_world)
     = inl (Exception "cannot encode")
  /\ files (snd (_safe_dump marker_compress [x03] "f"
                   (PyFunction failing_dumps) true false tt busy_world))
     = files busy_world.
Proof.
  split; [reflexivity|]. split; [right; reflexivity|].
  pose proof (encoder_failure_leaves_no_trace marker_compress [x03] "f"
                failing_dumps true true false tt busy_world
                (Exception "cannot encode") eq_refl (or_intror eq_refl)) as H.
  split; [exact (proj1 (proj2 H))|exact (proj1 (proj2 (proj2 H)))].
Defined.

Lemma load_depends_only_on_file_witness :
  files busy_world !! "f" = files later_world !! "f"
  /\ fst (_load marker_decompress "f" (PyFunction raw_loads) false false tt
            busy_world)
     = fst (_load marker_decompress "f" (PyFunction raw_loads) false true tt
              later_world).
Proof.
  split; [reflexivity|].
  exact (load_depends_only_on_file marker_decompress "f" (PyFunction raw_loads)
           false false true tt busy_world later_world eq_refl).
Defined.

Lemma load_propagates_decode_errors_witness :
  files busy_world !! "f" = Some [x01; x02]
  /\ marker_decompress [x01; x02] = inl zlib_error
  /\ fst (_load marker_decompress "f" (PyFunction raw_loads) true false tt
            busy_world)
     = inl zlib_error.
Proof.
  assert (Hp : files busy_world !! "f" = Some [x01; x02])
    by (vm_compute; reflexivity).
  split; [exact Hp|]. split; [reflexivity|].
  exact (proj1 (load_propagates_decode_errors marker_decompress "f" raw_loads
                  false tt busy_world [x01; x02] zlib_error Hp) eq_refl).
Defined.

Lemma second_dump_without_overwrite_keeps_first_witness :
  (forall b, marker_decompress (marker_compress b) = inr b)
  /\ raw_dumps [x03] tt = inr [x03]
  /\ raw_loads [x03] tt = inr [x03]
  /\ files busy_world !! "g" = None
  /\ fst (_dump marker_compress [x09] "g" (PyFunction failing_dumps)
            true false false tt
            (snd (_dump marker_compress [x03] "g" (PyFunction raw_dumps)
                    true false false tt busy_world)))
     = inr None.
Proof.
  split; [intros b; reflexivity|].
  split; [reflexivity|]. split; [reflexivity|].
  assert (Hp : files busy_world !! "g" = None) by (vm_compute; reflexivity).
  split; [exact Hp|].
  exact (proj1 (second_dump_without_overwrite_keeps_first marker_compress
                  marker_decompress (fun b => eq_refl) [x03] [x09] "g"
                  raw_dumps failing_dumps raw_loads true true false false
                  false false tt tt tt busy_world [x03] eq_refl eq_refl
                  (or_introl Hp))).
Defined.

Lemma overwriting_dump_forgets_earlier_dump_witness :
  raw_dumps [x09] tt = inr [x09]
  /\ files (snd (_dump marker_compress [x09] "g" (PyFunction raw_dumps)
                   false true false tt
                   (snd (_dump marker_compress [x03] "g" (PyFunction raw_dumps)
                           true false false tt busy_world))))
     = files (snd (_dump marker_compress [x09] "g" (PyFunction raw_dumps)
                     false true false tt busy_world)).
Proof.
  split; [reflexivity|].
  exact (overwriting_dump_forgets_earlier_dump marker_compress [x03] [x09] "g"
           (PyFunction raw_dumps) raw_dumps true false false false false
           tt tt busy_world [x09] eq_refl).
Defined.

Lemma overwrite_is_irrelevant_on_fresh_path_witness :
  files busy_world !! "g" = None
  /\ _dump marker_compress [x03] "g" (PyFunction raw_dumps) true false false tt
       busy_world
     = _dump marker_compress [x03] "g" (PyFunction raw_dumps) true true false tt
         busy_world.
Proof.
  assert (Hp : files busy_world !! "g" = None) by (vm_compute; reflexivity).
  split; [exact Hp|].
  exact (overwrite_is_irrelevant_on_fresh_path marker_compress [x03] "g"
           (PyFunction raw_dumps) true false tt busy_world Hp).
Defined.

Lemma dump_touches_only_target_witness :
  "f" <> "g"
  /\ files (snd (_dump marker_compress [x03] "g" (PyFunction raw_dumps)
                   true false false tt busy_world)) !! "f"
     = files busy_world !! "f".
Proof.
  assert (Hq : "f" <> "g") by discriminate.
  split; [exact Hq|].
  exact (dump_touches_only_target marker_compress [x03] "g" "f"
           (PyFunction raw_dumps) true false false tt busy_world Hq).
Defined.

Lemma safe_dump_then_load_roundtrip_witness :
  (forall b, marker_decompress (marker_compress b) = inr b)
  /\ raw_dumps [x03] tt = inr [x03]
  /\ raw_loads [x03] tt = inr [x03]
  /\ fst (_load marker_decompress "f" (PyFunction raw_loads) true false tt
            (snd (_safe_dump marker_compress [x03] "f" (PyFunction raw_dumps)
                    true false tt busy_world)))
     = inr [x03].
Proof.
  split; [intros b; reflexivity|].
  split; [reflexivity|]. split; [reflexivity|].
  exact (safe_dump_then_load_roundtrip marker_compress marker_decompress
           (fun b => eq_refl) [x03] "f" raw_dumps raw_loads true false false
           tt tt busy_world [x03] eq_refl eq_refl).
Defined.

Lemma test_dump_load_passes_witness :
  (forall b, marker_decompress (marker_compress b) = inr b)
  /\ inr (A:=exn) [x03] = inr [x03]
  /\ fst (test_dump_load marker_compress marker_decompress
            (fun obj => inr obj) (fun b => inr b)
            bytes_eqb [x03] busy_world)
     = inr tt.
Proof.
  split; [intros b; reflexivity|]. split; [reflexivity|].
  exact (proj1 (test_dump_load_passes marker_compress marker_decompress
                  (fun b => eq_refl) (fun obj => inr obj) (fun b => inr b)
                  bytes_eqb [x03] busy_world [x03]
                  eq_refl eq_refl eq_refl)).
Defined.

(** ** [_safe_dump] where a rename can be refused *)

(** On Windows, over the existing file ["f"]: interrupted after the target
    was opened for the copy and one byte was copied, [_safe_dump] has left
    neither the old content nor the new one at the target. *)
Example safe_dump_windows_interrupted_run :
  let fs := fs_run (take 7 (issued (_safe_dump marker_compress [x03; x04] "f"
                                      (PyFunction raw_dumps) true false tt)
                              windows_world))
              (files windows_world) in
  files windows_world !! "f" = Some [x01; x02]
  /\ fs !! "f" = Some [x78]
  /\ fs !! "f.tmp" = Some [x78; x03; x04].
Proof. vm_compute. repeat split. Qed.

Example safe_dump_windows_complete_run :
  let r := _safe_dump marker_compress [x03; x04] "f" (PyFunction raw_dumps)
             true false tt windows_world in
  fst r = inr (Some [x78; x03; x04])
  /\ files (snd r) !! "f" = Some [x78; x03; x04]
  /\ files (snd r) !! "f.tmp" = None.
Proof. vm_compute. repeat split. Qed.

Lemma safe_dump_copies_in_place_when_rename_refused_witness :
  payload marker_compress (PyFunction raw_dumps) [x03; x04] true tt
  = Some [x78; x03; x04]
  /\ os_rename_refused windows_world
       (<["f" ++ ".tmp" := [x78; x03; x04]]> (files windows_world))
       ("f" ++ ".tmp") "f"
     = true
  /\ (1 <= length [x78; x03; x04])%nat
  /\ fs_run (take 7 (issued (_safe_dump marker_compress [x03; x04] "f"
                               (PyFunction raw_dumps) true false tt)
                       windows_world))
       (files windows_world) !! "f"
     = Some [x78].
Proof.
  split; [reflexivity|].
  assert (Hr : os_rename_refused windows_world
                 (<["f" ++ ".tmp" := [x78; x03; x04]]> (files windows_world))
                 ("f" ++ ".tmp") "f" = true) by (vm_compute; reflexivity).
  split; [exact Hr|].
  assert (Hj : (1 <= length [x78; x03; x04])%nat) by (simpl; lia).
  split; [exact Hj|].
  exact (proj2 (proj2 (safe_dump_copies_in_place_when_rename_refused
                         marker_compress [x03; x04] "f" (PyFunction raw_dumps)
                         true false tt windows_world [x78; x03; x04] 1
                         eq_refl Hr Hj))).
Defined.

Lemma safe_dump_atomic_witness :
  (forall fs, os_rename_refused busy_world fs ("f" ++ ".tmp") "f" = false)
  /\ (forall q, q <> "f" -> q <> "f" ++ ".tmp" ->
      fs_run (take 2 (issued (_safe_dump marker_compress [x03; x04] "f"
                                (PyFunction raw_dumps) true false tt)
                        busy_world))
        (files busy_world) !! q
      = files busy_world !! q).
Proof.
  split; [intros fs; reflexivity|].
  exact (proj2 (proj2 (proj2 (proj2 (proj2
           (safe_dump_atomic marker_compress [x03; x04] "f"
              (PyFunction raw_dumps) true false tt busy_world 2
              (fun fs => eq_refl))))))).
Defined.

(** * rerecipe: numbers in a text

    [extract_number] of [sfm/rerecipe.py].  The text is a string of 8-bit
    characters.  [int] is modelled on the strings it can be given here
    (digits only, of any length); [float] is a parameter, with [None] for
    the [ValueError] it raises, and a float is known by what [float]
    returned. *)
Module rerecipe.

Import Stdlib.Strings.Ascii.

Inductive number (F : Type) : Type :=
| PyInt (n : Z)
| PyFloat (x : F).

Arguments PyInt {F} n.
Arguments PyFloat {F} x.

(** [set(".1234567890")] and the test [char in valid_char]. *)
Definition valid_char (char : ascii) : bool :=
  existsb (Ascii.eqb char) (list_ascii_of_string ".1234567890").

(** ["." in number]. *)
Definition contains_dot (number : string) : bool :=
  existsb (Ascii.eqb ".") (list_ascii_of_string number).

Definition digit_value (char : ascii) : option Z :=
  let code := Z.of_N (Ascii.N_of_ascii char) in
  if (48 <=? code) && (code <=? 57) then Some (code - 48) else None.

Fixpoint int_digits (s : string) (acc : Z) : option Z :=
  match s with
  | EmptyString => Some acc
  | String char rest =>
      match digit_value char with
      | Some d => int_digits rest (10 * acc + d)
      | None => None
      end
  end.

(** [int(number)] on a string without sign, blank or underscore: the value
    of a non-empty string of digits, [None] (a [ValueError]) otherwise. *)
Definition py_int (number : string) : option Z :=
  match number with
  | EmptyString => None
  | _ => int_digits number 0
  end.

(** The first loop: [result] collects the chunks closed so far, [chunk]
    the characters of the current one; the last chunk is added at the
    end. *)
Fixpoint scan (text : string) (result : list string) (chunk : string)
  : list string :=
  match text with
  | EmptyString => (result ++ [chunk])%list
  | String char rest =>
      if valid_char char then scan rest result (chunk ++ String char "")
      else scan rest (result ++ [chunk])%list ""
  end.

Section Convert.

Context {F : Type}.
Variable py_float : string -> option F.

(** One round of the second loop; an exception of [float] or [int] is
    swallowed and nothing is added. *)
Definition convert_step (result_new : list (number F)) (number : string)
  : list (rerecipe.number F) :=
  if contains_dot number then
    match py_float number with
    | Some x => (result_new ++ [PyFloat x])%list
    | None => result_new
    end
  else
    match py_int number with
    | Some n => (result_new ++ [PyInt n])%list
    | None => result_new
    end.

Definition extract_number (text : string) : list (number F) :=
  let result := scan text [] "" in
  fold_left convert_step result [].

End Convert.

(** A stand-in for [float] that accepts the strings with one dot and at
    least one digit, and keeps the digits before and after the dot. *)
Definition sample_float (s : string) : option (string * string) :=
  match index 0 "." s with
  | Some i =>
      let before := substring 0 i s in
      let after := substring (S i) (String.length s - S i) s in
      if contains_dot after || (String.length s =? 1)%nat then None
      else Some (before, after)
  | None => None
  end.

Example extract_number_docs :
  extract_number sample_float
    "Price is $25.99, age is 18, quarter is .25, one is 1."
  = [PyFloat ("25", "99"); PyInt 18; PyFloat ("", "25"); PyFloat ("1", "")].
Proof. vm_compute. reflexivity. Qed.

Example extract_number_version :
  extract_number sample_float "version 1.2.3 of -7" = [PyInt 7].
Proof. vm_compute. reflexivity. Qed.

(** The number of characters of the text that are neither a digit nor a
    dot. *)
Definition separators (text : string) : nat :=
  length (filter (fun char => valid_char char = false)
                 (list_ascii_of_string text)).

Lemma scan_result (text : string) (result : list string) (chunk : string) :
  scan text result chunk = (result ++ scan text [] chunk)%list.
Proof.
  revert result chunk. induction text as [|char rest IH]; intros result chunk.
  - done.
  - simpl. destruct (valid_char char).
    + apply IH.
    + rewrite (IH (result ++ [chunk])%list), (IH [chunk]).
      by rewrite <- app_assoc.
Qed.

Lemma scan_app_separator (s t : string) (char : ascii) (result : list string)
    (chunk : string) :
  valid_char char = false ->
  scan (s ++ String char t) result chunk
  = (scan s result chunk ++ scan t [] "")%list.
Proof.
  intros Hc. revert result chunk.
  induction s as [|a s IH]; intros result chunk.
  - change ("" ++ String char t) with (String char t). simpl. rewrite Hc.
    apply scan_result.
  - change (String a s ++ String char t) with (String a (s ++ String char t)).
    simpl. destruct (valid_char a); apply IH.
Qed.

Lemma string_app_nil_r (s : string) : (s ++ "")%string = s.
Proof.
  induction s as [|a s IH]; [done|].
  change (String a s ++ "")%string with (String a (s ++ "")). by rewrite IH.
Qed.

Lemma string_app_snoc (s t : string) (a : ascii) :
  ((s ++ String a "") ++ t)%string = (s ++ String a t)%string.
Proof.
  induction s as [|b s IH]; [done|].
  change ((String b s ++ String a "") ++ t)%string
    with (String b ((s ++ String a "") ++ t)).
  by rewrite IH.
Qed.

Lemma scan_one_chunk (text : string) (result : list string) (chunk : string) :
  forallb valid_char (list_ascii_of_string text) = true ->
  scan text result chunk = (result ++ [(chunk ++ text)%string])%list.
Proof.
  revert chunk. induction text as [|char rest IH]; intros chunk Hall.
  - simpl. by rewrite string_app_nil_r.
  - simpl in Hall. apply andb_prop in Hall as [Hc Hrest].
    simpl. rewrite Hc, (IH _ Hrest). by rewrite string_app_snoc.
Qed.

Lemma scan_length (text : string) (result : list string) (chunk : string) :
  length (scan text result chunk) = (length result + S (separators text))%nat.
Proof.
  revert result chunk. unfold separators.
  induction text as [|char rest IH]; intros result chunk.
  - simpl. rewrite length_app. simpl. lia.
  - simpl. destruct (valid_char char) eqn:Hc.
    + rewrite IH. rewrite filter_cons_False by (rewrite Hc; discriminate). done.
    + rewrite IH, length_app. rewrite filter_cons_True by done. simpl. lia.
Qed.

Section ConvertFacts.

Context {F : Type}.
Variable py_float : string -> option F.

Lemma convert_acc (l : list string) (acc : list (number F)) :
  fold_left (convert_step py_float) l acc
  = (acc ++ fold_left (convert_step py_float) l [])%list.
Proof.
  revert acc. induction l as [|s l IH]; intros acc.
  - simpl. by rewrite app_nil_r.
  - simpl. rewrite (IH (convert_step py_float acc s)),
      (IH (convert_step py_float [] s)).
    rewrite app_assoc. f_equal. unfold convert_step.
    destruct (contains_dot s).
    + destruct (py_float s); simpl; by rewrite ?app_nil_r.
    + destruct (py_int s); simpl; by rewrite ?app_nil_r.
Qed.

Lemma convert_app (l1 l2 : list string) :
  fold_left (convert_step py_float) (l1 ++ l2) []
  = (fold_left (convert_step py_float) l1 []
       ++ fold_left (convert_step py_float) l2 [])%list.
Proof. rewrite fold_left_app. apply convert_acc. Qed.

Lemma convert_length (l : list string) :
  (length (fold_left (convert_step py_float) l []) <= length l)%nat.
Proof.
  induction l as [|s l IH]; [done|].
  simpl. rewrite convert_acc, length_app.
  assert (length (convert_step py_float [] s) <= 1)%nat; [|simpl; lia].
  unfold convert_step. destruct (contains_dot s).
  - destruct (py_float s); simpl; lia.
  - destruct (py_int s); simpl; lia.
Qed.

Lemma digit_value_nonneg (char : ascii) (d : Z) :
  digit_value char = Some d -> 0 <= d.
Proof.
  unfold digit_value.
  destruct (48 <=? Z.of_N (N_of_ascii char)) eqn:H; simpl; [|discriminate].
  destruct (Z.of_N (N_of_ascii char) <=? 57); [|discriminate].
  intros [= <-]. lia.
Qed.

Lemma int_digits_nonneg (s : string) (acc n : Z) :
  0 <= acc -> int_digits s acc = Some n -> 0 <= n.
Proof.
  revert acc. induction s as [|char rest IH]; intros acc Hacc; simpl.
  - by intros [= <-].
  - destruct (digit_value char) as [d|] eqn:Hd; [|discriminate].
    apply IH. pose proof (digit_value_nonneg _ _ Hd). lia.
Qed.

Lemma py_int_nonneg (s : string) (n : Z) : py_int s = Some n -> 0 <= n.
Proof.
  unfold py_int. destruct s; [discriminate|]. by apply int_digits_nonneg.
Qed.

Lemma convert_ints (l : list string) (n : Z) :
  In (PyInt n) (fold_left (convert_step py_float) l []) ->
  exists s, In s l /\ py_int s = Some n.
Proof.
  induction l as [|s l IH]; [done|].
  simpl. rewrite convert_acc. intros H. apply in_app_or in H as [H|H].
  - exists s. split; [by left|]. unfold convert_step in H.
    destruct (contains_dot s).
    + destruct (py_float s); simpl in H; [|done]. by destruct H.
    + destruct (py_int s) as [m|]; simpl in H; [|done].
      destruct H as [[= ->]|[]]. done.
  - destruct (IH H) as (s' & Hin & Hs'). exists s'. split; [by right|done].
Qed.

(** X15: a character that is neither a digit nor a dot cuts the text in
    two: the numbers of the whole text are those of the part before it
    followed by those of the part after it. *)
Theorem extract_number_splits_at_separator (s t : string) (char : ascii) :
  valid_char char = false ->
  extract_number py_float (s ++ String char t)
  = (extract_number py_float s ++ extract_number py_float t)%list.
Proof.
  intros Hc. unfold extract_number.
  rewrite scan_app_separator by done. apply convert_app.
Qed.

(** X16: a text without any digit or dot gives no number at all: every
    chunk is empty and [int] refuses it. *)
Theorem extract_number_without_digits (text : string) :
  existsb valid_char (list_ascii_of_string text) = false ->
  extract_number py_float text = [].
Proof.
  unfold extract_number.
  induction text as [|char rest IH]; intros H; [done|].
  simpl in H. apply orb_false_elim in H as [Hc Hrest].
  simpl. rewrite Hc, scan_result, convert_app, (IH Hrest). done.
Qed.

(** X17: no integer that [extract_number] returns is negative: a minus
    sign is a separator like any other character. *)
Theorem extract_number_ints_nonnegative (text : string) (n : Z) :
  In (PyInt n) (extract_number py_float text) -> 0 <= n.
Proof.
  intros H. apply convert_ints in H as (s & _ & Hs).
  by apply (py_int_nonneg s).
Qed.

(** X18: every chunk gives one number at most, so a text yields no more
    numbers than it has separators, plus one. *)
Theorem extract_number_length (text : string) :
  (length (extract_number py_float text) <= S (separators text))%nat.
Proof.
  unfold extract_number.
  etrans; [apply convert_length|]. by rewrite scan_length.
Qed.

(** X19: a text made of digits and dots only is one chunk.  With a dot in
    it, it is given whole to [float], and nothing is returned when [float]
    refuses it; without a dot it is given to [int]. *)
Theorem extract_number_single_chunk (text : string) :
  forallb valid_char (list_ascii_of_string text) = true ->
  extract_number py_float text
  = if contains_dot text then
      match py_float text with
      | Some x => [PyFloat x]
      | None => []
      end
    else
      match py_int text with
      | Some n => [PyInt n]
      | None => []
      end.
Proof.
  intros Hall. unfold extract_number.
  rewrite scan_one_chunk by done. simpl. unfold convert_step.
  change ("" ++ text)%string with text.
  destruct (contains_dot text); [by destruct (py_float text)|].
  by destruct (py_int text).
Qed.

End ConvertFacts.

Lemma extract_number_splits_at_separator_witness :
  valid_char "," = false
  /\ extract_number sample_float ("1.5" ++ String "," "20")
     = [PyFloat ("1", "5"); PyInt 20].
Proof.
  split; [reflexivity|].
  rewrite (extract_number_splits_at_separator sample_float "1.5" "20" ","
             eq_refl).
  vm_compute. reflexivity.
Defined.

Lemma extract_number_without_digits_witness :
  existsb valid_char (list_ascii_of_string "no numbers, here!") = false
  /\ extract_number sample_float "no numbers, here!" = [].
Proof.
  split; [reflexivity|].
  exact (extract_number_without_digits sample_float "no numbers, here!"
           eq_refl).
Defined.

Lemma extract_number_ints_nonnegative_witness :
  In (PyInt 7) (extract_number sample_float "-7") /\ 0 <= 7.
Proof.
  assert (H : In (PyInt 7) (extract_number sample_float "-7")).
  { vm_compute. left. reflexivity. }
  split; [exact H|].
  exact (extract_number_ints_nonnegative sample_float "-7" 7 H).
Defined.

Lemma extract_number_single_chunk_witness :
  forallb valid_char (list_ascii_of_string "1.2.3") = true
  /\ extract_number sample_float "1.2.3" = [].
Proof.
  split; [reflexivity|].
  exact (extract_number_single_chunk sample_float "1.2.3" eq_refl).
Defined.

End rerecipe.
